(** * Storage pool resource of the libvirt provider

    A shallow embedding of [resourceLibvirtPoolCreate], [resourceLibvirtPoolRead],
    [resourceLibvirtPoolDelete], [resourceLibvirtPoolExists] (resource_libvirt_pool.go)
    and of [newDefPoolFromXML] (pool_def.go).

    The hypervisor connection is an interface ([Libvirt]); every method takes the
    state of the connection and returns its answer with the next state.  The
    provider functions run in a small monad that threads the resource data and the
    connection, stops at the first returned error, and emits the list of effects
    it performed, each hypervisor call with the answer it got.  Calls of
    [log.Printf] are left out. *)

From Stdlib Require Import ZArith Ascii String List.
From stdpp Require Import base decidable option list strings gmap pretty.

Local Open Scope string_scope.
Local Open Scope Z_scope.

(** ** Data *)

(** A Go [(T, error)] result. *)
Inductive result (E A : Type) : Type :=
| Ok (a : A)
| Err (e : E).
Arguments Ok {E A} a.
Arguments Err {E A} e.

(** [libvirt.Error]: the fields the provider looks at. *)
Record VirError := mkVirError { Code : Z; Message : string }.

(** [libvirt.ERR_NO_STORAGE_POOL] (VIR_ERR_NO_STORAGE_POOL). *)
Definition ERR_NO_STORAGE_POOL : Z := 49.

(** [libvirt.STORAGE_POOL_INACTIVE]. *)
Definition STORAGE_POOL_INACTIVE : Z := 0.

(** [*libvirt.StoragePool]: a handle on a pool of the connection. *)
Definition Pool : Type := N.

(** [libvirt.StoragePoolInfo]. *)
Record StoragePoolInfo := mkInfo {
  State : Z;
  Capacity : Z;
  Allocation : Z;
  Available : Z
}.

(** [libvirtxml.StoragePool], with the fields the provider fills or reads.
    A nil pointer is [None]. *)
Record StoragePoolTarget := mkTarget { Path : string }.
Record StoragePoolSourceDevice := mkDevice { DevicePath : string }.
Record StoragePoolSource := mkSource { Device : list StoragePoolSourceDevice }.
Record StoragePool := mkStoragePool {
  Type_ : string;
  Name : string;
  Target : option StoragePoolTarget;
  Source : option StoragePoolSource
}.

(** The zero value [libvirtxml.StoragePool{}]. *)
Definition emptyStoragePool : StoragePool :=
  {| Type_ := ""; Name := ""; Target := None; Source := None |}.

(** Values of the attribute bag of [schema.ResourceData]. *)
Inductive Value :=
| VString (s : string)
| VInt (n : Z).

(** [schema.ResourceData]: the identifier, the flat attribute bag, and the
    partial-state mode. *)
Record ResourceData := mkResourceData {
  Id : string;
  attrs : gmap string Value;
  partial : bool;
  partialMap : gset string
}.

(** The keys of the schema of [resourceLibvirtPool]; [d.Set] on another key
    fails, and the provider drops that failure. *)
Definition schemaKeys : list string :=
  ["name"; "type"; "capacity"; "allocation"; "available"; "xml"; "path";
   "source_devices"].

(** [d.Get(key).(string)]: the zero value when the key is unset. *)
Definition GetString (d : ResourceData) (key : string) : string :=
  match attrs d !! key with
  | Some (VString s) => s
  | _ => ""
  end.

(** [d.Get(key).(int)]. *)
Definition GetInt (d : ResourceData) (key : string) : Z :=
  match attrs d !! key with
  | Some (VInt n) => n
  | _ => 0
  end.

(** The resource data after [d.SetId(id)]. *)
Definition withId (id : string) (d : ResourceData) : ResourceData :=
  {| Id := id; attrs := attrs d; partial := partial d;
     partialMap := partialMap d |}.

(** The resource data after [d.Set(key, v)]: a key of the schema is written;
    on another key the SDK returns an error and writes nothing. *)
Definition withAttr (key : string) (v : Value) (d : ResourceData)
  : ResourceData :=
  if bool_decide (key ∈ schemaKeys)
  then {| Id := Id d; attrs := <[key := v]> (attrs d);
          partial := partial d; partialMap := partialMap d |}
  else d.

(** The resource data after [d.Partial(on)]: leaving the mode forgets the
    partial keys. *)
Definition withPartial (on : bool) (d : ResourceData) : ResourceData :=
  {| Id := Id d; attrs := attrs d; partial := on;
     partialMap := if on then partialMap d else ∅ |}.

(** The resource data after [d.SetPartial(k)]. *)
Definition withPartialKey (k : string) (d : ResourceData) : ResourceData :=
  {| Id := Id d; attrs := attrs d; partial := partial d;
     partialMap := if partial d then {[k]} ∪ partialMap d
                   else partialMap d |}.

(** [*Client]: [client.libvirt] is nil or points to the connection. *)
Record Client := mkClient { libvirt_nil : bool }.

(** The errors the provider returns, one per [fmt.Errorf] of the source (and of
    the two helpers modelled below); [ErrorString] renders the message. *)
Inductive PoolError :=
| ErrLibVirtConIsNil
| ErrUnsupportedType
| ErrAlreadyExists (poolName : string)
| ErrPathRequired
| ErrSourceDevicesForbidden
| ErrPathForbidden
| ErrSerializing (err : string)
| ErrApplyingXSLT (err : string)
| ErrCreating (err : VirError)
| ErrBuilding (err : VirError)
| ErrSettingUp (err : VirError)
| ErrStarting (err : VirError)
| ErrRefreshing (err : VirError)
| ErrRetrievingId (err : VirError)
| ErrWaitForExists (uuid : string)
| ErrReadName (err : VirError)
| ErrReadInfo (err : VirError)
| ErrReadXMLDesc (poolName : string) (err : VirError)
| ErrReadDefinition (poolName : string) (err : string)
| ErrCantRetrieve (id : string)
| ErrDefName (err : VirError)
| ErrDefXMLDesc (poolName : string) (err : VirError)
| ErrDefFromXML (poolName : string) (err : string)
| ErrDeleteLookup (err : VirError)
| ErrDeleteInfo (err : VirError)
| ErrDeleteStop (err : VirError)
| ErrDeleteUndefine (err : VirError).

(** The three errors of the type-specific validation of create. *)
Definition isValidationError (e : PoolError) : bool :=
  match e with
  | ErrPathRequired | ErrSourceDevicesForbidden | ErrPathForbidden => true
  | _ => false
  end.

(** ** The hypervisor connection *)

(** The methods of [*libvirt.Connect] and [*libvirt.StoragePool] the provider
    calls.  libvirt-go returns a nil pool exactly when it returns an error, so a
    lookup answers [Ok pool] or [Err e]; a method returning only [error] answers
    [None] for nil. *)
Class Libvirt (Conn : Type) := {
  LookupStoragePoolByName : string → Conn → result VirError Pool * Conn;
  LookupStoragePoolByUUIDString : string → Conn → result VirError Pool * Conn;
  StoragePoolDefineXML : string → Z → Conn → result VirError Pool * Conn;
  Build : Pool → Z → Conn → option VirError * Conn;
  SetAutostart : Pool → bool → Conn → option VirError * Conn;
  Create : Pool → Z → Conn → option VirError * Conn;
  Refresh : Pool → Z → Conn → option VirError * Conn;
  GetUUIDString : Pool → Conn → result VirError string * Conn;
  GetName : Pool → Conn → result VirError string * Conn;
  GetInfo : Pool → Conn → result VirError StoragePoolInfo * Conn;
  GetXMLDesc : Pool → Z → Conn → result VirError string * Conn;
  Destroy : Pool → Conn → option VirError * Conn;
  Undefine : Pool → Conn → option VirError * Conn;
  Free : Pool → Conn → option VirError * Conn
}.

(** The effects of a run, in order.  A hypervisor call carries its arguments
    and its answer. *)
Inductive Event :=
| EvLock (key : string)
| EvUnlock (key : string)
| EvSetId (id : string)
| EvSet (key : string) (v : Value)
| EvLookupStoragePoolByName (name : string) (r : result VirError Pool)
| EvLookupStoragePoolByUUIDString (uuid : string) (r : result VirError Pool)
| EvStoragePoolDefineXML (xml : string) (r : result VirError Pool)
| EvBuild (p : Pool) (r : option VirError)
| EvSetAutostart (p : Pool) (on : bool) (r : option VirError)
| EvCreate (p : Pool) (r : option VirError)
| EvRefresh (p : Pool) (r : option VirError)
| EvGetUUIDString (p : Pool) (r : result VirError string)
| EvGetName (p : Pool) (r : result VirError string)
| EvGetInfo (p : Pool) (r : result VirError StoragePoolInfo)
| EvGetXMLDesc (p : Pool) (r : result VirError string)
| EvDestroy (p : Pool) (r : option VirError)
| EvUndefine (p : Pool) (r : option VirError)
| EvFree (p : Pool) (r : option VirError).

(** The events that are operations on the hypervisor connection. *)
Definition hypervisorCall (e : Event) : bool :=
  match e with
  | EvLock _ | EvUnlock _ | EvSetId _ | EvSet _ _ => false
  | _ => true
  end.

(** The calls that change the hypervisor: define, build, autostart, start,
    and the stop and undefine of delete. *)
Definition hypervisorMutation (e : Event) : bool :=
  match e with
  | EvStoragePoolDefineXML _ _ | EvBuild _ _ | EvSetAutostart _ _ _
  | EvCreate _ _ | EvDestroy _ _ | EvUndefine _ _ => true
  | _ => false
  end.

Definition isBuild (e : Event) : bool :=
  match e with EvBuild _ _ => true | _ => false end.

Definition isSetPath (e : Event) : bool :=
  match e with EvSet key _ => bool_decide (key = "path") | _ => false end.

(** ** The monad of the provider functions *)

Section Monad.
Context {Conn : Type}.

(** What a run leaves: the returned value or error, the resource data, the
    connection, and the effects in order. *)
Record Out (A : Type) := mkOut {
  ret : result PoolError A;
  rd : ResourceData;
  hv : Conn;
  events : list Event
}.
Global Arguments mkOut {A} ret rd hv events.
Global Arguments ret {A} o.
Global Arguments rd {A} o.
Global Arguments hv {A} o.
Global Arguments events {A} o.

Definition M (A : Type) : Type := ResourceData → Conn → Out A.

Definition pure {A} (a : A) : M A := λ d c, mkOut (Ok a) d c [].

(** [return fmt.Errorf(...)]. *)
Definition throw {A} (e : PoolError) : M A := λ d c, mkOut (Err e) d c [].

(** The effects [evs] came first. *)
Definition after {A} (evs : list Event) (o : Out A) : Out A :=
  match o with
  | mkOut r d c evs' => mkOut r d c (evs ++ evs')
  end.

Definition bind {A B} (m : M A) (k : A → M B) : M B := λ d c,
  match m d c with
  | mkOut (Ok a) d c evs => after evs (k a d c)
  | mkOut (Err e) d c evs => mkOut (Err e) d c evs
  end.

(** [defer cleanup] followed by [body]: the clean-up runs when the body is
    left, by a return of either kind, and its own result is dropped. *)
Definition defer {A} (cleanup : M unit) (body : M A) : M A := λ d c,
  match body d c with
  | mkOut r d c evs =>
      match cleanup d c with
      | mkOut _ d c evs' => mkOut r d c (evs ++ evs')
      end
  end.

(** A method of the connection: run it, record it with its answer. *)
Definition call {A} (f : Conn → A * Conn) (ev : A → Event) : M A := λ d c,
  match f c with
  | (a, c) => mkOut (Ok a) d c [ev a]
  end.

(** An effect outside the connection. *)
Definition emit (e : Event) : M unit := λ d c, mkOut (Ok tt) d c [e].

Definition getData : M ResourceData := λ d c, mkOut (Ok d) d c [].

(** [d.SetId(id)]. *)
Definition SetId (id : string) : M unit := λ d c,
  mkOut (Ok tt) (withId id d) c [EvSetId id].

(** [d.Set(key, v)], whose error the provider never checks. *)
Definition Set_ (key : string) (v : Value) : M unit := λ d c,
  mkOut (Ok tt) (withAttr key v d) c [EvSet key v].

(** [d.Partial(on)]. *)
Definition Partial (on : bool) : M unit := λ d c,
  mkOut (Ok tt) (withPartial on d) c [].

(** [d.SetPartial(k)]. *)
Definition SetPartial (k : string) : M unit := λ d c,
  mkOut (Ok tt) (withPartialKey k d) c [].
End Monad.

Global Arguments M Conn A : clear implicits.

(** The monad in stdpp's notation: [x ← m; k] and [m ;; k]. *)
Global Instance M_ret {Conn} : MRet (M Conn) := λ A a, pure a.
Global Instance M_bind {Conn} : MBind (M Conn) := λ A B k m, bind m k.

(** ** The provider *)

Section Provider.
Context {Conn : Type} `{!Libvirt Conn}.

(** [xmlMarshallIndented], [transformResourceXML] and [xml.Unmarshal] are
    declared outside these sources and are taken as they are.  The
    definition handed to the first is a pointer, nil when [None];
    [xml.Unmarshal] fills its target as far as it gets and returns its
    error, if any. *)
Variable xmlMarshallIndented : option StoragePool → result string string.
Variable transformResourceXML : string → ResourceData → result string string.
Variable xmlUnmarshal : string → StoragePool * option string.

(** The number of lookups [poolWaitForExists] makes before it gives up. *)
Variable poolExistsAttempts : nat.

(** *** pool_def.go *)

Definition newDefPoolFromXML (s : string) : result string StoragePool :=
  let '(poolDef, err) := xmlUnmarshal s in
  match err with
  | Some err => Err err
  | None => Ok poolDef
  end.

(** *** The calls, as effects *)

Definition lock (key : string) : M Conn unit := emit (EvLock key).
Definition unlock (key : string) : M Conn unit := emit (EvUnlock key).

Definition lookupStoragePoolByName (name : string) : M Conn (result VirError Pool) :=
  call (LookupStoragePoolByName name) (EvLookupStoragePoolByName name).
Definition lookupStoragePoolByUUIDString (uuid : string)
  : M Conn (result VirError Pool) :=
  call (LookupStoragePoolByUUIDString uuid)
       (EvLookupStoragePoolByUUIDString uuid).
Definition storagePoolDefineXML (xml : string) (flags : Z)
  : M Conn (result VirError Pool) :=
  call (StoragePoolDefineXML xml flags) (EvStoragePoolDefineXML xml).
Definition build (p : Pool) (flags : Z) : M Conn (option VirError) :=
  call (Build p flags) (EvBuild p).
Definition setAutostart (p : Pool) (on : bool) : M Conn (option VirError) :=
  call (SetAutostart p on) (EvSetAutostart p on).
Definition create (p : Pool) (flags : Z) : M Conn (option VirError) :=
  call (Create p flags) (EvCreate p).
Definition refresh (p : Pool) (flags : Z) : M Conn (option VirError) :=
  call (Refresh p flags) (EvRefresh p).
Definition getUUIDString (p : Pool) : M Conn (result VirError string) :=
  call (GetUUIDString p) (EvGetUUIDString p).
Definition getName (p : Pool) : M Conn (result VirError string) :=
  call (GetName p) (EvGetName p).
Definition getInfo (p : Pool) : M Conn (result VirError StoragePoolInfo) :=
  call (GetInfo p) (EvGetInfo p).
Definition getXMLDesc (p : Pool) (flags : Z) : M Conn (result VirError string) :=
  call (GetXMLDesc p flags) (EvGetXMLDesc p).
Definition destroy (p : Pool) : M Conn (option VirError) :=
  call (Destroy p) (EvDestroy p).
Definition undefine (p : Pool) : M Conn (option VirError) :=
  call (Undefine p) (EvUndefine p).
(** [pool.Free()], whose error is never looked at. *)
Definition free (p : Pool) : M Conn unit :=
  _ ← call (Free p) (EvFree p); mret tt.

(** pool_def.go, lines 10-24. *)
Definition newDefPoolFromLibvirt (pool : Pool) : M Conn StoragePool :=
  r ← getName pool;
  match r with
  | Err err => throw (ErrDefName err)
  | Ok name =>
    r ← getXMLDesc pool 0;
    match r with
    | Err err => throw (ErrDefXMLDesc name err)
    | Ok poolDefXML =>
      match newDefPoolFromXML poolDefXML with
      | Err err => throw (ErrDefFromXML name err)
      | Ok poolDef => mret poolDef
      end
    end
  end.

(** *** resourceLibvirtPoolRead *)

(** Lines 262-265: the path of the parsed definition, empty without a
    target. *)
Definition definitionPath (poolDef : StoragePool) : string :=
  match Target poolDef with
  | Some target => if decide (Path target ≠ "") then Path target else ""
  | None => ""
  end.

Definition resourceLibvirtPoolRead (meta : Client) : M Conn unit :=
  if libvirt_nil meta then throw ErrLibVirtConIsNil else
  d ← getData;
  r ← lookupStoragePoolByUUIDString (Id d);
  match r with
  | Err _ => SetId "" ;; mret tt
  | Ok pool =>
    defer (free pool) (
      r ← getName pool;
      match r with
      | Err err => throw (ErrReadName err)
      | Ok poolName =>
        Set_ "name" (VString poolName) ;;
        r ← getInfo pool;
        match r with
        | Err err => throw (ErrReadInfo err)
        | Ok info =>
          Set_ "capacity" (VInt (Capacity info)) ;;
          Set_ "allocation" (VInt (Allocation info)) ;;
          Set_ "available" (VInt (Available info)) ;;
          r ← getXMLDesc pool 0;
          match r with
          | Err err => throw (ErrReadXMLDesc poolName err)
          | Ok poolDefXML =>
            let '(poolDef, err) := xmlUnmarshal poolDefXML in
            match err with
            | Some err => throw (ErrReadDefinition (Name poolDef) err)
            | None =>
              let poolPath := definitionPath poolDef in
              (if decide (Type_ poolDef ≠ "logical") then
                 if decide (poolPath = "") then mret tt
                 else Set_ "path" (VString poolPath)
               else mret tt) ;;
              let poolType := Type_ poolDef in
              (if decide (poolType = "") then mret tt
               else Set_ "type" (VString poolType)) ;;
              mret tt
            end
          end
        end
      end)
  end.

(** *** resourceLibvirtPoolExists *)

Definition resourceLibvirtPoolExists (meta : Client) : M Conn bool :=
  if libvirt_nil meta then throw ErrLibVirtConIsNil else
  d ← getData;
  r ← lookupStoragePoolByUUIDString (Id d);
  match r with
  | Err virErr =>
      if decide (Code virErr ≠ ERR_NO_STORAGE_POOL)
      then throw (ErrCantRetrieve (Id d))
      else mret false
  | Ok pool => defer (free pool) (mret true)
  end.
(** *** poolWaitForExists *)

(** Modelled from the spec: [poolWaitForExists] is declared outside these
    sources.  Section 4.3: it polls the connection up to a bound, succeeds as
    soon as a lookup by id returns successfully, and exhausting the bound is a
    fatal error of create.  The bound is a number of lookups; the pause
    between two of them is not modelled. *)
Fixpoint poolWaitForExistsLoop (attempts : nat) (uuid : string) : M Conn unit :=
  match attempts with
  | O => throw (ErrWaitForExists uuid)
  | S attempts =>
      r ← lookupStoragePoolByUUIDString uuid;
      match r with
      | Ok _ => mret tt
      | Err _ => poolWaitForExistsLoop attempts uuid
      end
  end.

Definition poolWaitForExists (uuid : string) : M Conn unit :=
  poolWaitForExistsLoop poolExistsAttempts uuid.

(** *** resourceLibvirtPoolCreate *)

(** Lines 146-149: the devices read from [source_devices.0], [source_devices.1],
    ... below the count [source_devices.#]; no iteration leaves the slice nil,
    which is the empty list. *)
Definition sourceDevices (d : ResourceData) : list StoragePoolSourceDevice :=
  (λ i : nat, {| DevicePath := GetString d ("source_devices." +:+ pretty i) |})
    <$> seq 0 (Z.to_nat (GetInt d "source_devices.#")).

(** Lines 110-159: the type-specific validation and the definition, with
    [needToBuild].  [poolDef] stays nil for a type that is neither (line 94
    lets none through). *)
Definition newPoolDef (d : ResourceData) (poolType poolName : string)
  : result PoolError (option StoragePool * bool) :=
  let poolPath := GetString d "path" in
  if decide (poolType = "dir") then
    if decide (poolPath = "") then Err ErrPathRequired
    else if decide (GetInt d "source_devices.#" ≠ 0)
    then Err ErrSourceDevicesForbidden
    else Ok (Some {| Type_ := "dir"; Name := poolName;
                     Target := Some {| Path := poolPath |};
                     Source := None |}, true)
  else if decide (poolType = "logical") then
    if decide (poolPath ≠ "") then Err ErrPathForbidden
    else
      match sourceDevices d with
      | [] => Ok (Some {| Type_ := "logical"; Name := poolName;
                          Target := None; Source := None |}, false)
      | devices =>
          Ok (Some {| Type_ := "logical"; Name := poolName;
                      Target := None;
                      Source := Some {| Device := devices |} |}, true)
      end
  else Ok (None, true).

Definition resourceLibvirtPoolCreate (meta : Client) : M Conn unit :=
  if libvirt_nil meta then throw ErrLibVirtConIsNil else
  d ← getData;
  let poolType := GetString d "type" in
  if decide (poolType ≠ "dir" ∧ poolType ≠ "logical")
  then throw ErrUnsupportedType else
  let poolName := GetString d "name" in
  lock poolName ;;
  defer (unlock poolName) (
    r ← lookupStoragePoolByName poolName;
    match r with
    | Ok _ => throw (ErrAlreadyExists poolName)
    | Err _ =>
      match newPoolDef d poolType poolName with
      | Err e => throw e
      | Ok (poolDef, needToBuild) =>
        match xmlMarshallIndented poolDef with
        | Err err => throw (ErrSerializing err)
        | Ok data =>
          match transformResourceXML data d with
          | Err err => throw (ErrApplyingXSLT err)
          | Ok data =>
            r ← storagePoolDefineXML data 0;
            match r with
            | Err err => throw (ErrCreating err)
            | Ok pool =>
              defer (free pool) (
                (if needToBuild then
                   err ← build pool 0;
                   match err with
                   | Some err => throw (ErrBuilding err)
                   | None => mret tt
                   end
                 else mret tt) ;;
                err ← setAutostart pool true;
                match err with
                | Some err => throw (ErrSettingUp err)
                | None =>
                  err ← create pool 0;
                  match err with
                  | Some err => throw (ErrStarting err)
                  | None =>
                    err ← refresh pool 0;
                    match err with
                    | Some err => throw (ErrRefreshing err)
                    | None =>
                      r ← getUUIDString pool;
                      match r with
                      | Err err => throw (ErrRetrievingId err)
                      | Ok id =>
                        SetId id ;;
                        Partial true ;;
                        Set_ "id" (VString id) ;;
                        SetPartial "id" ;;
                        Partial false ;;
                        poolWaitForExists id ;;
                        resourceLibvirtPoolRead meta
                      end
                    end
                  end
                end)
            end
          end
        end
      end
    end).

(** *** resourceLibvirtPoolDelete *)

(** Modelled from the spec: [deletePool] is declared outside these sources.
    Section 4.4, delete protocol: look up by id; if the lookup fails because
    the resource is already absent, that is success; otherwise stop (if
    active) and undefine, and both must succeed or the operation is fatal.
    Absence is the error code the existence check singles out; whether the
    pool is active is read from its info. *)
Definition deletePool (uuid : string) : M Conn unit :=
  r ← lookupStoragePoolByUUIDString uuid;
  match r with
  | Err virErr =>
      if decide (Code virErr = ERR_NO_STORAGE_POOL) then mret tt
      else throw (ErrDeleteLookup virErr)
  | Ok pool =>
      r ← getInfo pool;
      match r with
      | Err err => throw (ErrDeleteInfo err)
      | Ok info =>
        (if decide (State info ≠ STORAGE_POOL_INACTIVE) then
           err ← destroy pool;
           match err with
           | Some err => throw (ErrDeleteStop err)
           | None => mret tt
           end
         else mret tt) ;;
        err ← undefine pool;
        match err with
        | Some err => throw (ErrDeleteUndefine err)
        | None => mret tt
        end
      end
  end.

Definition resourceLibvirtPoolDelete (meta : Client) : M Conn unit :=
  if libvirt_nil meta then throw ErrLibVirtConIsNil else
  d ← getData;
  deletePool (Id d).

(** *** The messages *)

(** [LibVirtConIsNil] is a constant declared outside these sources, and
    [libvirt.Error.Error()] belongs to libvirt-go. *)
Variable LibVirtConIsNil : string.
Variable virErrorString : VirError → string.

(** A word between double quotes. *)
Definition quoted (s : string) : string :=
  String "034"%char s +:+ String "034"%char "".

(** The message of each error, from the format of its [fmt.Errorf]; the two
    last groups are the helpers modelled from the spec, which fixes no
    wording. *)
Definition ErrorString (e : PoolError) : string :=
  match e with
  | ErrLibVirtConIsNil => LibVirtConIsNil
  | ErrUnsupportedType =>
      "Only storage pools of type " +:+ quoted "dir" +:+ " and "
        +:+ quoted "logical" +:+ " are supported"
  | ErrAlreadyExists poolName =>
      "storage pool '" +:+ poolName +:+ "' already exists"
  | ErrPathRequired =>
      quoted "path" +:+ " attribute is requires for storage pools of type "
        +:+ quoted "dir"
  | ErrSourceDevicesForbidden =>
      quoted "source_devices"
        +:+ " attribute cannot be used for storage pool of type "
        +:+ quoted "dir"
  | ErrPathForbidden =>
      quoted "path" +:+ " attribute cannot be used for storage pool of type "
        +:+ quoted "logical"
  | ErrSerializing err => "Error serializing libvirt storage pool: " +:+ err
  | ErrApplyingXSLT err => "Error applying XSLT stylesheet: " +:+ err
  | ErrCreating err =>
      "Error creating libvirt storage pool: " +:+ virErrorString err
  | ErrBuilding err =>
      "Error building libvirt storage pool: " +:+ virErrorString err
  | ErrSettingUp err =>
      "Error setting up libvirt storage pool: " +:+ virErrorString err
  | ErrStarting err =>
      "Error starting libvirt storage pool: " +:+ virErrorString err
  | ErrRefreshing err =>
      "Error refreshing libvirt storage pool: " +:+ virErrorString err
  | ErrRetrievingId err =>
      "Error retrieving libvirt pool id: " +:+ virErrorString err
  | ErrReadName err => "error retrieving pool name: " +:+ virErrorString err
  | ErrReadInfo err => "error retrieving pool info: " +:+ virErrorString err
  | ErrReadXMLDesc poolName err =>
      "could not get XML description for pool " +:+ poolName +:+ ": "
        +:+ virErrorString err
  | ErrReadDefinition poolName err =>
      "could not get a pool definition from XML for " +:+ poolName +:+ ": "
        +:+ err
  | ErrCantRetrieve id => "Can't retrieve pool " +:+ id
  | ErrDefName err => "could not get name for pool: " +:+ virErrorString err
  | ErrDefXMLDesc poolName err =>
      "could not get XML description for pool " +:+ poolName +:+ ": "
        +:+ virErrorString err
  | ErrDefFromXML poolName err =>
      "could not get a pool definition from XML for " +:+ poolName +:+ ": "
        +:+ err
  | ErrWaitForExists uuid => "timeout waiting for pool " +:+ uuid
  | ErrDeleteLookup err => "error looking up pool: " +:+ virErrorString err
  | ErrDeleteInfo err => "error retrieving pool info: " +:+ virErrorString err
  | ErrDeleteStop err => "error stopping pool: " +:+ virErrorString err
  | ErrDeleteUndefine err => "error undefining pool: " +:+ virErrorString err
  end.
End Provider.

(** ** A scripted connection and a small codec

    Concrete instances of the interface and of the codec, to run the provider
    on. *)

Module Scripted.

(** The answers the connection will give, in order. *)
Inductive Reply :=
| RPool (r : result VirError Pool)
| RError (r : option VirError)
| RString (r : result VirError string)
| RInfo (r : result VirError StoragePoolInfo).

Definition Script : Type := list Reply.

(** What a call gets when the script has no answer of its kind next. *)
Definition offScript : VirError := {| Code := 1; Message := "off script" |}.

Definition notFound : VirError :=
  {| Code := ERR_NO_STORAGE_POOL; Message := "Storage pool not found" |}.

Definition answerPool (c : Script) : result VirError Pool * Script :=
  match c with
  | RPool r :: c => (r, c)
  | _ :: c => (Err offScript, c)
  | [] => (Err offScript, [])
  end.

Definition answerError (c : Script) : option VirError * Script :=
  match c with
  | RError r :: c => (r, c)
  | _ :: c => (Some offScript, c)
  | [] => (Some offScript, [])
  end.

Definition answerString (c : Script) : result VirError string * Script :=
  match c with
  | RString r :: c => (r, c)
  | _ :: c => (Err offScript, c)
  | [] => (Err offScript, [])
  end.

Definition answerInfo (c : Script) : result VirError StoragePoolInfo * Script :=
  match c with
  | RInfo r :: c => (r, c)
  | _ :: c => (Err offScript, c)
  | [] => (Err offScript, [])
  end.

#[export] Instance scripted : Libvirt Script := {|
  LookupStoragePoolByName _ := answerPool;
  LookupStoragePoolByUUIDString _ := answerPool;
  StoragePoolDefineXML _ _ := answerPool;
  Build _ _ := answerError;
  SetAutostart _ _ := answerError;
  Create _ _ := answerError;
  Refresh _ _ := answerError;
  GetUUIDString _ := answerString;
  GetName _ := answerString;
  GetInfo _ := answerInfo;
  GetXMLDesc _ _ := answerString;
  Destroy _ := answerError;
  Undefine _ := answerError;
  Free _ := answerError
|}.

(** The text of [s] after the first [opening] and before the next [closing]. *)
Definition between (opening closing s : string) : option string :=
  match index 0 opening s with
  | Some i =>
      let start := (i + String.length opening)%nat in
      match index start closing s with
      | Some j => Some (substring start (j - start) s)
      | None => None
      end
  | None => None
  end.

(** Every [<device path=...>] of [s], left to right. *)
Fixpoint devicesFrom (fuel from : nat) (s : string)
  : list StoragePoolSourceDevice :=
  match fuel with
  | O => []
  | S fuel =>
      let opening := "<device path=" +:+ String "034"%char "" in
      match index from opening s with
      | Some i =>
          let start := (i + String.length opening)%nat in
          match index start (String "034"%char "") s with
          | Some j =>
              {| DevicePath := substring start (j - start) s |}
                :: devicesFrom fuel j s
          | None => []
          end
      | None => []
      end
  end.

Definition newline : string := String "010"%char "".

(** A pool definition as indented XML, element by element. *)
Definition xmlMarshallIndented (poolDef : option StoragePool)
  : result string string :=
  match poolDef with
  | None => Ok ""
  | Some def =>
      Ok ("<pool type=" +:+ quoted (Type_ def) +:+ ">" +:+ newline
          +:+ "  <name>" +:+ Name def +:+ "</name>" +:+ newline
          +:+ match Target def with
              | Some target =>
                  "  <target>" +:+ newline
                  +:+ "    <path>" +:+ Path target +:+ "</path>" +:+ newline
                  +:+ "  </target>" +:+ newline
              | None => ""
              end
          +:+ match Source def with
              | Some source =>
                  "  <source>" +:+ newline
                  +:+ String.concat ""
                        ((λ dev, "    <device path="
                                 +:+ quoted (DevicePath dev)
                                 +:+ "></device>" +:+ newline)
                           <$> Device source)
                  +:+ "  </source>" +:+ newline
              | None => ""
              end
          +:+ "</pool>")
  end.

(** The definition read back from such a text. *)
Definition xmlUnmarshal (s : string) : StoragePool * option string :=
  match between ("<pool type=" +:+ String "034"%char "")
                (String "034"%char "") s with
  | None => (emptyStoragePool, Some "expected element type <pool>")
  | Some type =>
      ({| Type_ := type;
          Name := default "" (between "<name>" "</name>" s);
          Target :=
            match index 0 "<target>" s with
            | Some _ =>
                Some {| Path := default "" (between "<path>" "</path>" s) |}
            | None => None
            end;
          Source :=
            match index 0 "<source>" s with
            | Some _ =>
                Some {| Device := devicesFrom (String.length s) 0 s |}
            | None => None
            end |}, None)
  end.

(** No XSLT: the text goes through as it is. *)
Definition transformResourceXML (data : string) (d : ResourceData)
  : result string string := Ok data.

(** A resource with the given identifier and attributes. *)
Definition resource (id : string) (l : list (string * Value)) : ResourceData :=
  {| Id := id; attrs := list_to_map l; partial := false; partialMap := ∅ |}.

Definition connected : Client := {| libvirt_nil := false |}.

Definition resourceLibvirtPoolCreate :=
  resourceLibvirtPoolCreate (Conn := Script)
    xmlMarshallIndented transformResourceXML xmlUnmarshal 3 connected.
Definition resourceLibvirtPoolRead :=
  resourceLibvirtPoolRead (Conn := Script) xmlUnmarshal connected.

(** *** Configurations and answers to run on *)

(** A dir pool without a path, a dir pool, a logical pool without devices. *)
Definition dirWithoutPath : ResourceData :=
  resource "" [("name", VString "pool1"); ("type", VString "dir")].
Definition dirPool : ResourceData :=
  resource "" [("name", VString "pool1"); ("type", VString "dir");
               ("path", VString "/tmp/x")].
Definition logicalPool : ResourceData :=
  resource "" [("name", VString "vg0"); ("type", VString "logical")].
Definition logicalWithDevices : ResourceData :=
  resource "" [("name", VString "vg0"); ("type", VString "logical");
               ("source_devices.#", VInt 2);
               ("source_devices.0", VString "/dev/sdb");
               ("source_devices.1", VString "/dev/sdc")].
Definition created : ResourceData :=
  resource "uuid-1" [("name", VString "pool1"); ("type", VString "dir");
                     ("path", VString "/tmp/x")].

Definition someInfo : StoragePoolInfo :=
  {| State := 2; Capacity := 100; Allocation := 10; Available := 90 |}.
Definition refused : VirError :=
  {| Code := 38; Message := "cannot open volume group" |}.
Definition unreachable : VirError :=
  {| Code := 38; Message := "cannot recv data" |}.

(** The text a hypervisor describes a pool with: the definition as the codec
    writes it. *)
Definition described (poolDef : StoragePool) : string :=
  match xmlMarshallIndented (Some poolDef) with
  | Ok data => data
  | Err _ => ""
  end.

Definition dirDefinition : StoragePool :=
  {| Type_ := "dir"; Name := "pool1";
     Target := Some {| Path := "/tmp/x" |}; Source := None |}.

(** A logical pool as libvirt describes it, with the path it generated. *)
Definition logicalDefinition : StoragePool :=
  {| Type_ := "logical"; Name := "vg0";
     Target := Some {| Path := "/dev/vg0" |}; Source := None |}.

(** The answers of a create that goes through, build included, up to the
    identifier. *)
Definition defineAndStart : Script :=
  [RPool (Err notFound); RPool (Ok 7%N); RError None; RError None;
   RError None; RError None; RString (Ok "uuid-1")].

End Scripted.

(** ** The acceptance-test helpers (resource_libvirt_pool_test.go) *)

(** [terraform.InstanceState]: the identifier and the flat attributes. *)
Record InstanceState := mkInstanceState {
  ID : string;
  Attributes : gmap string string
}.

(** [terraform.ResourceState]: [rs.Type] and [rs.Primary.ID]. *)
Record ResourceState := mkResourceState {
  ResourceType : string;
  PrimaryID : string
}.

(** The errors of the import checks, with the arguments of their formats. *)
Inductive CheckError :=
| AttributeNotFound (name key : string)
| AttributeMismatch (name key expected got : string)
| CheckFailed (i n : nat) (err : CheckError)
| InstanceStateFailed (i n : nat) (err : CheckError).

(** [ImportStateCheckFunc]; nil is [None]. *)
Definition ImportStateCheckFunc : Type := InstanceState → option CheckError.

Definition testImportStateCheckResourceAttr (name key value : string)
  : ImportStateCheckFunc := λ instanceState,
  match Attributes instanceState !! key with
  | None => Some (AttributeNotFound name key)
  | Some v =>
      if decide (v ≠ value) then Some (AttributeMismatch name key value v)
      else None
  end.

(** The loop of [composeTestImportStateCheckFunc] from index [i] on, [n]
    being [len(fs)]. *)
Fixpoint composeFrom (i n : nat) (fs : list ImportStateCheckFunc)
    (instanceState : InstanceState) : option CheckError :=
  match fs with
  | [] => None
  | f :: fs =>
      match f instanceState with
      | Some err => Some (CheckFailed (i + 1) n err)
      | None => composeFrom (S i) n fs instanceState
      end
  end.

Definition composeTestImportStateCheckFunc (fs : list ImportStateCheckFunc)
  : ImportStateCheckFunc := composeFrom 0 (length fs) fs.

(** The loop of the [ImportStateCheck] of [TestAccLibvirtPool_Import] (lines
    85-98) from index [i] on: every imported state is checked for the name,
    the type dir and the path. *)
Fixpoint importStateCheckFrom (i n : nat)
    (resourceName randomPoolName poolPath : string)
    (instanceState : list InstanceState) : option CheckError :=
  match instanceState with
  | [] => None
  | f :: rest =>
      match composeTestImportStateCheckFunc
              [testImportStateCheckResourceAttr resourceName "name"
                 randomPoolName;
               testImportStateCheckResourceAttr resourceName "type" "dir";
               testImportStateCheckResourceAttr resourceName "path" poolPath]
              f with
      | Some err => Some (InstanceStateFailed (i + 1) n err)
      | None =>
          importStateCheckFrom (S i) n resourceName randomPoolName poolPath
            rest
      end
  end.

Definition importStateCheck (resourceName randomPoolName poolPath : string)
    (instanceState : list InstanceState) : option CheckError :=
  importStateCheckFrom 0 (length instanceState) resourceName randomPoolName
    poolPath instanceState.

(** The errors of the two destroy checks. *)
Inductive TestError :=
| ErrCantRetrievePoolID (err : VirError)
| ErrStillExists (id : string)
| ErrWaitingDestroyed (id : string).

Section TestHelpers.
Context {Conn : Type} `{!Libvirt Conn}.

(** [testAccCheckLibvirtPoolDoesNotExists], the check it returns.  The
    connection of the test provider is live. *)
Definition testAccCheckLibvirtPoolDoesNotExists (pool : Pool)
  : M Conn (option TestError) :=
  r ← getUUIDString pool;
  match r with
  | Err err => mret (Some (ErrCantRetrievePoolID err))
  | Ok id =>
    r ← lookupStoragePoolByUUIDString id;
    match r with
    | Ok pool => free pool ;; mret (Some (ErrStillExists id))
    | Err _ => mret None
    end
  end.

(** [testAccCheckLibvirtPoolDestroy] over the resources of the root module,
    in the order the map is ranged over. *)
Fixpoint testAccCheckLibvirtPoolDestroy (resources : list ResourceState)
  : M Conn (option TestError) :=
  match resources with
  | [] => mret None
  | rs :: resources =>
      if decide (ResourceType rs ≠ "libvirt_pool")
      then testAccCheckLibvirtPoolDestroy resources
      else
        r ← lookupStoragePoolByUUIDString (PrimaryID rs);
        match r with
        | Ok _ => mret (Some (ErrWaitingDestroyed (PrimaryID rs)))
        | Err _ => testAccCheckLibvirtPoolDestroy resources
        end
  end.
End TestHelpers.

(** ** Disciplines of a run, as checks on its events *)


(** The steps of create on the pool, in the order of the protocol. *)
Definition stepRank (e : Event) : option nat :=
  match e with
  | EvStoragePoolDefineXML _ _ => Some 1%nat
  | EvBuild _ _ => Some 2%nat
  | EvSetAutostart _ _ _ => Some 3%nat
  | EvCreate _ _ => Some 4%nat
  | EvRefresh _ _ => Some 5%nat
  | EvGetUUIDString _ _ => Some 6%nat
  | _ => None
  end.

(** A step that answered with an error. *)
Definition stepFailed (e : Event) : bool :=
  match e with
  | EvStoragePoolDefineXML _ (Err _) | EvBuild _ (Some _)
  | EvSetAutostart _ _ (Some _) | EvCreate _ (Some _) | EvRefresh _ (Some _)
  | EvGetUUIDString _ (Err _) => true
  | _ => false
  end.

(** The steps among the events come in strictly increasing rank above
    [last], and a failed step is the last step. *)
Fixpoint stepsInOrder (last : nat) (l : list Event) : bool :=
  match l with
  | [] => true
  | e :: l =>
      match stepRank e with
      | None => stepsInOrder last l
      | Some r =>
          (last <? r)%nat
          && (if stepFailed e
              then forallb (λ e, bool_decide (stepRank e = None)) l
              else stepsInOrder r l)
      end
  end.

(** The attributes a read writes. *)
Definition readKeys : list string :=
  ["name"; "capacity"; "allocation"; "available"; "path"; "type"].

(** The pool attributes an imported state must have. *)
Definition importedAs (randomPoolName poolPath : string)
    (instanceState : InstanceState) : Prop :=
  Attributes instanceState !! "name" = Some randomPoolName
  ∧ Attributes instanceState !! "type" = Some "dir"
  ∧ Attributes instanceState !! "path" = Some poolPath.

(** The failed lookups of the pools [pools], one error each. *)
Definition failedLookups (pools : list ResourceState) (errs : list VirError)
  : list Event :=
  zip_with (λ rs err, EvLookupStoragePoolByUUIDString (PrimaryID rs) (Err err))
    pools errs.


(** ** Runs to check the properties on *)

Module ScriptedRuns.
Import Scripted.

(** The answers of a read that goes through on a dir pool. *)
Definition readThrough : Script :=
  [RPool (Ok 7%N); RString (Ok "pool1"); RInfo (Ok someInfo);
   RString (Ok (described dirDefinition)); RError None].

(** The answers of a create that goes through, its poll and its final read
    included. *)
Definition createThrough : Script :=
  (defineAndStart ++ RPool (Ok 7%N) :: readThrough ++ [RError None])%list.

(** The answers of a create whose pool never becomes visible to the poll. *)
Definition createNeverSeen : Script :=
  (defineAndStart
   ++ [RPool (Err notFound); RPool (Err notFound); RPool (Err notFound);
       RError None])%list.

End ScriptedRuns.

(** ** Properties *)

(** [s] has [sub] somewhere inside. *)
Definition contains (sub s : string) : Prop :=
  ∃ before behind : string, s = before +:+ sub +:+ behind.

(** The events a read can leave, and those of the existence poll. *)
Definition readEvent (e : Event) : bool :=
  match e with
  | EvLookupStoragePoolByUUIDString _ _ | EvSetId _ | EvSet _ _
  | EvGetName _ _ | EvGetInfo _ _ | EvGetXMLDesc _ _ | EvFree _ _ => true
  | _ => false
  end.

Definition pollEvent (uuid : string) (e : Event) : bool :=
  match e with
  | EvLookupStoragePoolByUUIDString uuid' _ => bool_decide (uuid' = uuid)
  | _ => false
  end.

(** What a read can return: nil, or one of its own errors. *)
Definition readResult (r : result PoolError unit) : bool :=
  match r with
  | Ok _ => true
  | Err (ErrLibVirtConIsNil | ErrReadName _ | ErrReadInfo _
        | ErrReadXMLDesc _ _ | ErrReadDefinition _ _) => true
  | Err _ => false
  end.

(** The source devices of a definition, none without a source. *)
Definition definitionDevices (poolDef : StoragePool)
  : list StoragePoolSourceDevice :=
  match Source poolDef with
  | Some source => Device source
  | None => []
  end.


(** A run returned a validation error without any call on the connection. *)
Definition validationBeforeAnyCall (o : result PoolError unit)
    (events : list Event)
  : Prop :=
  (∃ e, o = Err e ∧ isValidationError e = true)
  ∧ Forall (λ e, hypervisorCall e = false) events.

Definition isGetUUIDString (e : Event) : bool :=
  match e with EvGetUUIDString _ _ => true | _ => false end.

(** Every identifier a run obtained is recorded by the very next effect. *)
Fixpoint recordedAtOnce (l : list Event) : bool :=
  match l with
  | [] => true
  | e :: rest =>
      match e with
      | EvGetUUIDString _ (Ok id) =>
          match rest with
          | EvSetId id' :: _ => bool_decide (id' = id)
          | _ => false
          end
      | _ => true
      end && recordedAtOnce rest
  end.

(** Unfolds the monad and the calls, leaving the methods of the connection. *)
Ltac unfold_monad :=
  unfold lookupStoragePoolByName, lookupStoragePoolByUUIDString,
    storagePoolDefineXML, build, setAutostart, create, refresh, getUUIDString,
    getName, getInfo, getXMLDesc, destroy, undefine, free, lock, unlock,
    mbind, mret, M_bind, M_ret, bind, defer, call, emit, throw, pure, getData,
    SetId, Set_, Partial, SetPartial, after in *.

(** Splits on the innermost scrutinee the goal is stuck on. *)
Ltac break_match :=
  match goal with
  | |- context [match ?x with _ => _ end] =>
      lazymatch x with
      | context [match _ with _ => _ end] => fail
      | _ => destruct x eqn:?
      end
  end.

Section Properties.
Context {Conn : Type} `{!Libvirt Conn}.
Variable xmlMarshallIndented : option StoragePool → result string string.
Variable transformResourceXML : string → ResourceData → result string string.
Variable xmlUnmarshal : string → StoragePool * option string.
Variable poolExistsAttempts : nat.

Variable LibVirtConIsNil : string.
Variable virErrorString : VirError → string.

Local Abbreviation Read := (resourceLibvirtPoolRead xmlUnmarshal).
Local Abbreviation CreatePool :=
  (resourceLibvirtPoolCreate xmlMarshallIndented transformResourceXML
     xmlUnmarshal poolExistsAttempts).

(** A read whose lookup fails, whatever the error, clears the identifier and
    returns nil after that one call. *)
Lemma read_lookup_failed (meta : Client) (d : ResourceData) (c c' : Conn)
    (e : VirError) :
  libvirt_nil meta = false →
  LookupStoragePoolByUUIDString (Id d) c = (Err e, c') →
  Read meta d c =
    mkOut (Ok tt) (withId "" d) c'
      [EvLookupStoragePoolByUUIDString (Id d) (Err e); EvSetId ""].
Proof.
  intros Hmeta Hlookup. unfold resourceLibvirtPoolRead. rewrite Hmeta.
  unfold_monad. rewrite Hlookup. reflexivity.
Qed.

(** The existence poll only looks the id up, leaves the resource data alone,
    and returns nil or its own error. *)
Lemma poolWaitForExistsLoop_spec (n : nat) (uuid : string) (d : ResourceData)
    (c : Conn) :
  rd (poolWaitForExistsLoop n uuid d c) = d
  ∧ (ret (poolWaitForExistsLoop n uuid d c) = Ok tt
     ∨ ret (poolWaitForExistsLoop n uuid d c) = Err (ErrWaitForExists uuid))
  ∧ Forall (λ e, pollEvent uuid e = true)
      (events (poolWaitForExistsLoop n uuid d c)).
Proof.
  revert c. induction n as [|n IH]; intros c; simpl.
  - unfold_monad. simpl. auto.
  - unfold_monad. destruct (LookupStoragePoolByUUIDString uuid c) as [[p|e] c'].
    + simpl. repeat split; auto.
      repeat constructor. simpl. by apply bool_decide_eq_true.
    + destruct (IH c') as (Hd & Hr & Hev).
      destruct (poolWaitForExistsLoop n uuid d c') as [r d' c'' evs].
      simpl in *. repeat split; auto.
      constructor; [simpl; by apply bool_decide_eq_true | done].
Qed.

Lemma Id_withAttr (key : string) (v : Value) (d : ResourceData) :
  Id (withAttr key v d) = Id d.
Proof. unfold withAttr. by case_bool_decide. Qed.

(** A read leaves only events of a read and returns nil or an error of its
    own; it keeps the identifier, unless it clears it and returns nil. *)
Lemma read_spec (meta : Client) (d : ResourceData) (c : Conn) :
  readResult (ret (Read meta d c)) = true
  ∧ Forall (λ e, readEvent e = true) (events (Read meta d c))
  ∧ (Id (rd (Read meta d c)) = Id d
     ∨ ret (Read meta d c) = Ok tt ∧ Id (rd (Read meta d c)) = "").
Proof.
  unfold resourceLibvirtPoolRead. unfold_monad.
  repeat break_match; simplify_eq/=; rewrite ?Id_withAttr;
    (split; [reflexivity|split; [repeat constructor|auto]]).
Qed.

(** C2: a read whose lookup by id does not find the pool clears the
    identifier and returns nil; an externally deleted pool is no read
    failure. *)
Theorem read_of_deleted_pool_clears_id (meta : Client) (d : ResourceData)
    (c c' : Conn) (e : VirError) :
  libvirt_nil meta = false →
  LookupStoragePoolByUUIDString (Id d) c = (Err e, c') →
  Code e = ERR_NO_STORAGE_POOL →
  ret (Read meta d c) = Ok tt
  ∧ Id (rd (Read meta d c)) = ""
  ∧ attrs (rd (Read meta d c)) = attrs d.
Proof.
  intros Hmeta Hlookup _.
  rewrite (read_lookup_failed meta d c c' e Hmeta Hlookup). auto.
Qed.

(** C10: a read whose lookup by id fails with any error, not only the code
    the existence check singles out, clears the identifier and returns nil;
    two failing lookups leave the same result and the same resource data,
    whatever their errors. *)
Theorem read_takes_any_lookup_error_for_deletion (meta : Client)
    (d : ResourceData) (c1 c1' c2 c2' : Conn) (e1 e2 : VirError) :
  libvirt_nil meta = false →
  LookupStoragePoolByUUIDString (Id d) c1 = (Err e1, c1') →
  LookupStoragePoolByUUIDString (Id d) c2 = (Err e2, c2') →
  ret (Read meta d c1) = Ok tt
  ∧ rd (Read meta d c1) = withId "" d
  ∧ events (Read meta d c1)
    = [EvLookupStoragePoolByUUIDString (Id d) (Err e1); EvSetId ""]
  ∧ ret (Read meta d c1) = ret (Read meta d c2)
  ∧ rd (Read meta d c1) = rd (Read meta d c2).
Proof.
  intros Hmeta H1 H2.
  rewrite (read_lookup_failed meta d c1 c1' e1 Hmeta H1).
  rewrite (read_lookup_failed meta d c2 c2' e2 Hmeta H2). auto.
Qed.

(** C7: the existence check answers (false, nil) when the lookup by id fails
    with the code of a missing storage pool, false with the error that names
    the id when it fails with another code, and (true, nil) when it
    succeeds. *)
Theorem exists_follows_lookup (meta : Client) (d : ResourceData) (c c' : Conn)
    (r : result VirError Pool) :
  libvirt_nil meta = false →
  LookupStoragePoolByUUIDString (Id d) c = (r, c') →
  match r with
  | Err e =>
      if decide (Code e = ERR_NO_STORAGE_POOL)
      then ret (resourceLibvirtPoolExists meta d c) = Ok false
      else ret (resourceLibvirtPoolExists meta d c)
           = Err (ErrCantRetrieve (Id d))
  | Ok _ => ret (resourceLibvirtPoolExists meta d c) = Ok true
  end.
Proof.
  intros Hmeta Hlookup. unfold resourceLibvirtPoolExists. rewrite Hmeta.
  unfold_monad. rewrite Hlookup. destruct r as [pool|e]; simpl.
  - destruct (Free pool c'); reflexivity.
  - repeat case_decide; try reflexivity; contradiction.
Qed.

(** C3: a delete whose lookup by id fails because the pool is already absent
    returns nil, having made that one call and changed nothing. *)
Theorem delete_of_absent_pool_succeeds (meta : Client) (d : ResourceData)
    (c c' : Conn) (e : VirError) :
  libvirt_nil meta = false →
  LookupStoragePoolByUUIDString (Id d) c = (Err e, c') →
  Code e = ERR_NO_STORAGE_POOL →
  resourceLibvirtPoolDelete meta d c
  = mkOut (Ok tt) d c' [EvLookupStoragePoolByUUIDString (Id d) (Err e)].
Proof.
  intros Hmeta Hlookup Hcode. unfold resourceLibvirtPoolDelete, deletePool.
  rewrite Hmeta. unfold_monad. rewrite Hlookup. simpl.
  case_decide; [reflexivity | contradiction].
Qed.

(** The type-specific validation fails only with a validation error. *)
Lemma newPoolDef_error (d : ResourceData) (poolType poolName : string)
    (e : PoolError) :
  newPoolDef d poolType poolName = Err e → isValidationError e = true.
Proof.
  unfold newPoolDef. intros H.
  repeat case_decide; try destruct (sourceDevices d); by simplify_eq.
Qed.

(** Create up to the validation: the name is locked, looked up, and a name in
    use or a failed validation ends the run there. *)
Lemma create_until_validation (meta : Client) (d : ResourceData) (c : Conn)
    (e : PoolError) :
  libvirt_nil meta = false →
  GetString d "type" = "dir" ∨ GetString d "type" = "logical" →
  newPoolDef d (GetString d "type") (GetString d "name") = Err e →
  CreatePool meta d c
  = mkOut
      (Err match (LookupStoragePoolByName (GetString d "name") c).1 with
           | Ok _ => ErrAlreadyExists (GetString d "name")
           | Err _ => e
           end)
      d (LookupStoragePoolByName (GetString d "name") c).2
      [EvLock (GetString d "name");
       EvLookupStoragePoolByName (GetString d "name")
         (LookupStoragePoolByName (GetString d "name") c).1;
       EvUnlock (GetString d "name")].
Proof.
  intros Hmeta Htype Hdef. unfold resourceLibvirtPoolCreate.
  rewrite Hmeta. unfold_monad. simpl.
  case_decide as Hno; [destruct Hno; destruct Htype; contradiction|].
  rewrite Hdef.
  destruct (LookupStoragePoolByName (GetString d "name") c) as [[p|e'] c'];
    reflexivity.
Qed.

(** C1, as the code has it: on a live connection, a create of type dir with
    an empty path, or of type logical with a path, makes one hypervisor call,
    the lookup of the name; when that finds nothing, create returns the
    validation error, and when it finds a pool, the conflict error.  Nothing
    has been defined and the resource data is as it was. *)
Theorem create_validates_path_after_name_lookup (meta : Client)
    (d : ResourceData) (c : Conn) :
  libvirt_nil meta = false →
  (GetString d "type" = "dir" ∧ GetString d "path" = "")
  ∨ (GetString d "type" = "logical" ∧ GetString d "path" ≠ "") →
  let name := GetString d "name" in
  let lookup := LookupStoragePoolByName name c in
  let o := CreatePool meta d c in
  events o
  = [EvLock name; EvLookupStoragePoolByName name lookup.1; EvUnlock name]
  ∧ rd o = d
  ∧ (∀ e, lookup.1 = Err e →
       ∃ e', ret o = Err e' ∧ isValidationError e' = true
             ∧ e' = (if decide (GetString d "type" = "dir")
                     then ErrPathRequired else ErrPathForbidden))
  ∧ (∀ p, lookup.1 = Ok p → ret o = Err (ErrAlreadyExists name)).
Proof.
  intros Hmeta Hspec name lookup o.
  assert (∃ e, newPoolDef d (GetString d "type") name = Err e
               ∧ isValidationError e = true
               ∧ e = (if decide (GetString d "type" = "dir")
                      then ErrPathRequired else ErrPathForbidden))
    as (e & Hdef & Hval & He).
  { unfold newPoolDef.
    destruct Hspec as [[Ht Hp]|[Ht Hp]]; rewrite Ht; simpl;
      repeat case_decide; try done; eauto. }
  assert (GetString d "type" = "dir" ∨ GetString d "type" = "logical")
    as Htype by (destruct Hspec as [[? _]|[? _]]; auto).
  subst o. rewrite (create_until_validation meta d c e Hmeta Htype Hdef).
  fold name lookup. simpl. repeat split.
  - intros e0 Hl. rewrite Hl. eauto.
  - intros p Hl. by rewrite Hl.
Qed.

(** Brings in what is known of a poll or a read whose outcome was named. *)
Ltac use_specs :=
  repeat match goal with
  | H : poolWaitForExists ?n ?uuid ?d ?c = _ |- _ =>
      let S := fresh "Hpoll" in
      pose proof (poolWaitForExistsLoop_spec n uuid d c) as S;
      unfold poolWaitForExists in H; rewrite H in S; clear H; simpl in S
  | H : resourceLibvirtPoolRead ?u ?meta ?d ?c = _ |- _ =>
      let S := fresh "Hread" in
      pose proof (read_spec meta d c) as S;
      rewrite H in S; clear H; simpl in S
  end.

(** C4: create returns the conflict error exactly when it reaches the lookup
    of the name and that lookup succeeds; the message has the declared name
    in it, and the run is then lock, lookup, unlock: nothing was defined,
    built, set to autostart or started. *)
Theorem create_conflict_iff_name_lookup_succeeds (meta : Client)
    (d : ResourceData) (c : Conn) :
  let name := GetString d "name" in
  let lookup := LookupStoragePoolByName name c in
  let o := CreatePool meta d c in
  ((∃ n, ret o = Err (ErrAlreadyExists n))
   ↔ libvirt_nil meta = false
     ∧ (GetString d "type" = "dir" ∨ GetString d "type" = "logical")
     ∧ ∃ p, lookup.1 = Ok p)
  ∧ (∀ n, ret o = Err (ErrAlreadyExists n) →
       n = name
       ∧ contains name
           (ErrorString LibVirtConIsNil virErrorString (ErrAlreadyExists n))
       ∧ events o
         = [EvLock name; EvLookupStoragePoolByName name lookup.1;
            EvUnlock name]
       ∧ Forall (λ e, hypervisorMutation e = false) (events o)
       ∧ rd o = d).
Proof.
  intros name lookup o.
  assert (∀ n, ret o = Err (ErrAlreadyExists n) →
          libvirt_nil meta = false
          ∧ (GetString d "type" = "dir" ∨ GetString d "type" = "logical")
          ∧ (∃ p, lookup.1 = Ok p)
          ∧ n = name
          ∧ events o
            = [EvLock name; EvLookupStoragePoolByName name lookup.1;
               EvUnlock name]
          ∧ rd o = d) as Hconflict.
  { subst o lookup name. unfold resourceLibvirtPoolCreate. unfold_monad.
    intros n.
    repeat break_match; use_specs; simplify_eq/=; intros Hret;
      simplify_eq/=.
    all: simpl in *;
      try match goal with
          | H : newPoolDef _ _ _ = Err _ |- _ =>
              apply newPoolDef_error in H; discriminate
          end;
      try (exfalso; intuition discriminate).
    repeat split; eauto.
    destruct (decide (GetString d "type" = "dir")); auto.
    destruct (decide (GetString d "type" = "logical")); auto.
    exfalso; auto. }
  split; [split|].
  - intros [n Hn]. destruct (Hconflict n Hn) as (? & ? & ? & _). auto.
  - intros (Hmeta & Htype & p & Hp). exists name.
    subst o lookup name. unfold resourceLibvirtPoolCreate.
    rewrite Hmeta. unfold_monad. simpl.
    case_decide as Hno; [destruct Hno; destruct Htype; contradiction|].
    destruct (LookupStoragePoolByName (GetString d "name") c) as [r c'].
    simpl in Hp. by subst r.
  - intros n Hn. destruct (Hconflict n Hn) as (_ & _ & _ & -> & Hev & Hd).
    repeat split; auto.
    + by exists "storage pool '", "' already exists".
    + rewrite Hev. repeat constructor.
Qed.

(** Among events that obtain no identifier there is nothing to record. *)
Lemma recordedAtOnce_none (l : list Event) :
  Forall (λ e, isGetUUIDString e = false) l → recordedAtOnce l = true.
Proof.
  induction 1 as [|e l He _ IH]; [done|]. simpl. rewrite IH.
  by destruct e.
Qed.

(** Proves a property of every event of a run from its concrete events and
    from what is known of the events of the poll and of the read. *)
Ltac all_events :=
  repeat (apply Forall_cons; split; [reflexivity|]);
  rewrite ?Forall_app; repeat split; try apply Forall_nil_2;
  try (repeat (apply Forall_cons; split; [reflexivity|]);
       apply Forall_nil_2);
  try (eapply Forall_impl; [eassumption|]; by intros []).

(** Closes a goal where an event is among those of a poll or a read that
    cannot leave it. *)
Ltac elem_false :=
  match goal with
  | H : ?x ∈ ?l, F : Forall _ ?l |- _ =>
      rewrite Forall_forall in F; specialize (F x H); discriminate F
  end.

(** Splits the membership of an event in the events of a run. *)
Ltac elem_cases H :=
  repeat first [ rewrite elem_of_cons in H | rewrite elem_of_app in H
               | rewrite elem_of_nil in H ];
  destruct_or?; simplify_eq/=; try done; try elem_false.

(** C8: in every run of create the identifier, once obtained, is recorded by
    the very next effect; when a later step fails, the poll for existence or
    any other, the resource data still holds it. *)
Theorem create_records_id_at_once (meta : Client) (d : ResourceData)
    (c : Conn) :
  let o := CreatePool meta d c in
  recordedAtOnce (events o) = true
  ∧ (∀ p uuid e, EvGetUUIDString p (Ok uuid) ∈ events o →
       ret o = Err e → Id (rd o) = uuid)
  ∧ (∀ uuid, ret o = Err (ErrWaitForExists uuid) →
       Id (rd o) = uuid ∧ ∃ p, EvGetUUIDString p (Ok uuid) ∈ events o).
Proof.
  intros o. subst o. unfold resourceLibvirtPoolCreate. unfold_monad.
  repeat break_match; use_specs; simplify_eq/=.
  all: destruct_and?; subst; simpl in *; rewrite ?Id_withAttr in *;
    simpl in *.
  all: split; [|split].
  all: try reflexivity.
  all: try (intros p0 uuid0 err0 Hin Hret; elem_cases Hin).
  all: try (intros uuid0 Hret; simplify_eq/=).
  all: try exact I.
  all: try match goal with
           | H : newPoolDef _ _ _ = Err _ |- _ =>
               apply newPoolDef_error in H; discriminate
           end.
  all: try (rewrite bool_decide_eq_true_2 by done; simpl;
            apply recordedAtOnce_none; all_events).
  all: try (destruct_or?; destruct_and?; simplify_eq/=; congruence).
  all: try (destruct_or?; destruct_and?; simplify_eq/=; split; [done|];
            eexists; rewrite !elem_of_cons;
            repeat (first [left; reflexivity | right])).
  all: exact I.
Qed.

(** [needToBuild] is false for a logical pool without source devices. *)
Lemma newPoolDef_adopts (d : ResourceData) (poolName : string)
    (poolDef : option StoragePool) (needToBuild : bool) :
  GetInt d "source_devices.#" = 0 →
  newPoolDef d "logical" poolName = Ok (poolDef, needToBuild) →
  needToBuild = false.
Proof.
  unfold newPoolDef, sourceDevices. intros ->. simpl.
  repeat case_decide; try done; by intros [= _ <-].
Qed.

(** [needToBuild] is true for a dir pool and for a logical pool with source
    devices. *)
Lemma newPoolDef_builds (d : ResourceData) (poolType poolName : string)
    (poolDef : option StoragePool) (needToBuild : bool) :
  poolType = "dir"
  ∨ (poolType = "logical" ∧ 0 < GetInt d "source_devices.#") →
  newPoolDef d poolType poolName = Ok (poolDef, needToBuild) →
  needToBuild = true.
Proof.
  unfold newPoolDef, sourceDevices. intros [->|[-> Hn]]; simpl.
  - repeat case_decide; try done; by intros [= _ <-].
  - destruct (Z.to_nat (GetInt d "source_devices.#")) as [|n] eqn:Hc; [lia|].
    simpl. repeat case_decide; try done; by intros [= _ <-].
Qed.

(** C5: a create of a logical pool without source devices never calls the
    build step, and once the pool is defined it goes on to autostart; a
    create of a dir pool, or of a logical pool with source devices, calls
    the build step on the pool it defined, and a failure of that step is the
    error create returns, with no autostart after it. *)
Theorem create_builds_unless_logical_without_devices (meta : Client)
    (d : ResourceData) (c : Conn) :
  let o := CreatePool meta d c in
  (GetString d "type" = "logical" → GetInt d "source_devices.#" = 0 →
     Forall (λ e, isBuild e = false) (events o)
     ∧ ∀ xml p, EvStoragePoolDefineXML xml (Ok p) ∈ events o →
         ∃ r, EvSetAutostart p true r ∈ events o)
  ∧ (GetString d "type" = "dir"
     ∨ (GetString d "type" = "logical" ∧ 0 < GetInt d "source_devices.#") →
     ∀ xml p, EvStoragePoolDefineXML xml (Ok p) ∈ events o →
       ∃ r, EvBuild p r ∈ events o
            ∧ ∀ err, r = Some err →
                ret o = Err (ErrBuilding err)
                ∧ ∀ r', EvSetAutostart p true r' ∉ events o).
Proof.
  intros o. subst o. unfold resourceLibvirtPoolCreate. unfold_monad.
  repeat break_match; use_specs; simplify_eq/=.
  all: destruct_and?; subst.
  all: split;
    [ intros Htype Hcount;
      first
        [ exfalso;
          match goal with
          | H : newPoolDef _ _ _ = Ok (_, true) |- _ =>
              rewrite Htype in H; apply newPoolDef_adopts in H;
              [discriminate|exact Hcount]
          end
        | split;
          [ all_events
          | intros xml0 pool0 Hin; elem_cases Hin;
            eexists; rewrite !elem_of_cons;
            repeat (first [left; reflexivity | right]) ] ]
    | intros Hspec;
      first
        [ exfalso;
          match goal with
          | H : newPoolDef _ _ _ = Ok (_, false) |- _ =>
              apply (newPoolDef_builds _ _ _ _ _ Hspec) in H; discriminate
          end
        | intros xml0 pool0 Hin; elem_cases Hin;
          (eexists; split;
           [ rewrite !elem_of_cons;
             repeat (first [left; reflexivity | right])
           | intros err0 Herr; simplify_eq/=;
             (split; [reflexivity|]); intros r0 Hin0; elem_cases Hin0 ]) ] ].
Qed.

Lemma lookup_withAttr_ne (key k : string) (v : Value) (d : ResourceData) :
  key ≠ k → attrs (withAttr key v d) !! k = attrs d !! k.
Proof.
  intros Hne. unfold withAttr. case_bool_decide; [|done].
  simpl. by rewrite lookup_insert_ne.
Qed.

(** A definition has a path to surface when it has a target with a path. *)
Lemma definitionPath_nonempty (poolDef : StoragePool) :
  definitionPath poolDef ≠ "" →
  ∃ target, Target poolDef = Some target ∧ Path target ≠ ""
            ∧ definitionPath poolDef = Path target.
Proof.
  unfold definitionPath. destruct (Target poolDef) as [target|]; [|done].
  case_decide; [eauto|done].
Qed.

(** C9: a read whose parsed definition has type logical never writes the
    path attribute, whatever target path the definition has; a read writes
    it only from a definition of another type whose target path is not
    empty, and writes that path. *)
Theorem read_surfaces_path_only_for_other_types (meta : Client)
    (d : ResourceData) (c : Conn) :
  let o := Read meta d c in
  (∀ p xml poolDef,
     EvGetXMLDesc p (Ok xml) ∈ events o →
     xmlUnmarshal xml = (poolDef, None) →
     Type_ poolDef = "logical" →
     Forall (λ e, isSetPath e = false) (events o)
     ∧ attrs (rd o) !! "path" = attrs d !! "path")
  ∧ (∀ v, EvSet "path" v ∈ events o →
       ∃ p xml poolDef target,
         EvGetXMLDesc p (Ok xml) ∈ events o
         ∧ xmlUnmarshal xml = (poolDef, None)
         ∧ Type_ poolDef ≠ "logical"
         ∧ Target poolDef = Some target
         ∧ Path target ≠ ""
         ∧ v = VString (Path target)).
Proof.
  intros o. subst o. unfold resourceLibvirtPoolRead. unfold_monad.
  repeat break_match; simplify_eq/=.
  all: split;
    [ intros p0 xml0 def0 Hin Hparse Hlogical; elem_cases Hin;
      match goal with
      | H : xmlUnmarshal ?x = _ |- _ =>
          tryif constr_eq H Hparse then fail
          else (rewrite Hparse in H; simplify_eq/=)
      end;
      try contradiction;
      (split; [all_events|]);
      rewrite ?lookup_withAttr_ne by done;
      rewrite ?lookup_insert_ne by done; reflexivity
    | intros v0 Hin; elem_cases Hin;
      match goal with
      | H : definitionPath _ ≠ "" |- _ =>
          destruct (definitionPath_nonempty _ H) as (t0 & Ht & Hp & ->)
      end;
      do 4 eexists; (split; [|eauto]);
      rewrite !elem_of_cons; repeat (first [left; reflexivity | right]) ].
Qed.


(** The text create submits is the built definition, serialized and then
    transformed. *)
Lemma create_submits_built_definition (meta : Client) (d : ResourceData)
    (c : Conn) (xml : string) (r : result VirError Pool) :
  EvStoragePoolDefineXML xml r ∈ events (CreatePool meta d c) →
  ∃ poolDef needToBuild data,
    newPoolDef d (GetString d "type") (GetString d "name")
    = Ok (poolDef, needToBuild)
    ∧ xmlMarshallIndented poolDef = Ok data
    ∧ transformResourceXML data d = Ok xml.
Proof.
  unfold resourceLibvirtPoolCreate. unfold_monad.
  repeat break_match; use_specs; simplify_eq/=.
  all: destruct_and?; intros Hin; elem_cases Hin;
    do 3 eexists; (split; [|split]); first [eassumption|reflexivity].
Qed.


End Properties.

(** ** Runs on the scripted connection *)

(** Finds an event in the events of a concrete run. *)
Ltac find_event :=
  repeat first [apply list_elem_of_here | apply list_elem_of_further].

Section Runs.
Import Scripted.

(** C1, counterexample: a create of a dir pool without a path returns the
    validation error only after it has looked the name up on the connection,
    so not before any hypervisor call. *)
Lemma create_dir_without_path_looks_name_up_first :
  let o := Scripted.resourceLibvirtPoolCreate dirWithoutPath
             [RPool (Err notFound)] in
  ret o = Err ErrPathRequired
  ∧ events o
    = [EvLock "pool1"; EvLookupStoragePoolByName "pool1" (Err notFound);
       EvUnlock "pool1"]
  ∧ ¬ validationBeforeAnyCall (ret o) (events o).
Proof.
  split; [reflexivity|]. split; [reflexivity|].
  intros [_ Hcalls]. vm_compute in Hcalls.
  inversion Hcalls as [|? ? _ Hrest]. inversion Hrest as [|? ? Hcall _].
  discriminate Hcall.
Qed.

Lemma create_validates_path_after_name_lookup_witness :
  let o := Scripted.resourceLibvirtPoolCreate dirWithoutPath
             [RPool (Err notFound)] in
  let lookup := LookupStoragePoolByName "pool1" [RPool (Err notFound)] in
  events o
  = [EvLock "pool1"; EvLookupStoragePoolByName "pool1" lookup.1;
     EvUnlock "pool1"]
  ∧ rd o = dirWithoutPath
  ∧ (∀ e, lookup.1 = Err e →
       ∃ e', ret o = Err e' ∧ isValidationError e' = true
             ∧ e' = (if decide (GetString dirWithoutPath "type" = "dir")
                     then ErrPathRequired else ErrPathForbidden))
  ∧ (∀ p, lookup.1 = Ok p → ret o = Err (ErrAlreadyExists "pool1")).
Proof.
  apply (create_validates_path_after_name_lookup
           (Conn := Script) Scripted.xmlMarshallIndented
           Scripted.transformResourceXML Scripted.xmlUnmarshal 3 connected
           dirWithoutPath [RPool (Err notFound)]).
  - reflexivity.
  - left. split; reflexivity.
Defined.

Lemma read_of_deleted_pool_clears_id_witness :
  let o := Scripted.resourceLibvirtPoolRead created [RPool (Err notFound)] in
  ret o = Ok tt ∧ Id (rd o) = "" ∧ attrs (rd o) = attrs created.
Proof.
  apply (read_of_deleted_pool_clears_id (Conn := Script)
           Scripted.xmlUnmarshal connected created
           [RPool (Err notFound)] [] notFound); reflexivity.
Defined.

Lemma read_takes_any_lookup_error_for_deletion_witness :
  let o1 := Scripted.resourceLibvirtPoolRead created
              [RPool (Err unreachable)] in
  let o2 := Scripted.resourceLibvirtPoolRead created
              [RPool (Err notFound)] in
  ret o1 = Ok tt
  ∧ rd o1 = withId "" created
  ∧ events o1
    = [EvLookupStoragePoolByUUIDString "uuid-1" (Err unreachable);
       EvSetId ""]
  ∧ ret o1 = ret o2
  ∧ rd o1 = rd o2.
Proof.
  apply (read_takes_any_lookup_error_for_deletion (Conn := Script)
           Scripted.xmlUnmarshal connected created
           [RPool (Err unreachable)] [] [RPool (Err notFound)] []
           unreachable notFound); reflexivity.
Defined.

Lemma exists_follows_lookup_witness :
  ret (resourceLibvirtPoolExists connected created [RPool (Err notFound)])
  = Ok false
  ∧ ret (resourceLibvirtPoolExists connected created
           [RPool (Err unreachable)])
    = Err (ErrCantRetrieve "uuid-1")
  ∧ ret (resourceLibvirtPoolExists connected created
           [RPool (Ok 7%N); RError None])
    = Ok true.
Proof.
  split; [|split].
  - exact (exists_follows_lookup (Conn := Script) connected created
             [RPool (Err notFound)] [] (Err notFound) eq_refl eq_refl).
  - exact (exists_follows_lookup (Conn := Script) connected created
             [RPool (Err unreachable)] [] (Err unreachable) eq_refl eq_refl).
  - exact (exists_follows_lookup (Conn := Script) connected created
             [RPool (Ok 7%N); RError None] [RError None] (Ok 7%N)
             eq_refl eq_refl).
Defined.

Lemma delete_of_absent_pool_succeeds_witness :
  resourceLibvirtPoolDelete connected created [RPool (Err notFound)]
  = mkOut (Ok tt) created []
      [EvLookupStoragePoolByUUIDString "uuid-1" (Err notFound)].
Proof.
  apply (delete_of_absent_pool_succeeds (Conn := Script) connected created
           [RPool (Err notFound)] [] notFound); reflexivity.
Defined.

Lemma create_conflict_iff_name_lookup_succeeds_witness :
  let o := Scripted.resourceLibvirtPoolCreate dirPool [RPool (Ok 7%N)] in
  ret o = Err (ErrAlreadyExists "pool1")
  ∧ contains "pool1"
      (ErrorString "the libvirt connection was nil" Message
         (ErrAlreadyExists "pool1"))
  ∧ events o
    = [EvLock "pool1"; EvLookupStoragePoolByName "pool1" (Ok 7%N);
       EvUnlock "pool1"]
  ∧ Forall (λ e, hypervisorMutation e = false) (events o).
Proof.
  intros o.
  destruct (create_conflict_iff_name_lookup_succeeds (Conn := Script)
              Scripted.xmlMarshallIndented Scripted.transformResourceXML
              Scripted.xmlUnmarshal 3 "the libvirt connection was nil"
              Message connected dirPool [RPool (Ok 7%N)]) as [_ Hrun].
  destruct (Hrun "pool1" eq_refl) as (_ & Hmsg & Hevents & Hquiet & _).
  split; [reflexivity|]. split; [exact Hmsg|]. split; [exact Hevents|].
  exact Hquiet.
Defined.

Lemma create_records_id_at_once_witness :
  let o := Scripted.resourceLibvirtPoolCreate dirPool
             (defineAndStart
              ++ [RPool (Err notFound); RPool (Err notFound);
                  RPool (Err notFound); RError None])%list in
  ret o = Err (ErrWaitForExists "uuid-1")
  ∧ Id (rd o) = "uuid-1"
  ∧ recordedAtOnce (events o) = true.
Proof.
  intros o.
  destruct (create_records_id_at_once (Conn := Script)
              Scripted.xmlMarshallIndented Scripted.transformResourceXML
              Scripted.xmlUnmarshal 3 connected dirPool
              (defineAndStart
               ++ [RPool (Err notFound); RPool (Err notFound);
                   RPool (Err notFound); RError None])%list)
    as (Honce & _ & Hpoll).
  split; [reflexivity|]. split; [|exact Honce].
  exact (proj1 (Hpoll "uuid-1" eq_refl)).
Defined.

Lemma create_builds_unless_logical_without_devices_witness :
  (let o := Scripted.resourceLibvirtPoolCreate logicalPool
              [RPool (Err notFound); RPool (Ok 7%N); RError None;
               RError None; RError None; RString (Ok "uuid-1");
               RPool (Ok 7%N); RPool (Err notFound); RError None] in
   ret o = Ok tt
   ∧ Forall (λ e, isBuild e = false) (events o)
   ∧ ∃ r, EvSetAutostart 7%N true r ∈ events o)
  ∧ (let o := Scripted.resourceLibvirtPoolCreate logicalWithDevices
                [RPool (Err notFound); RPool (Ok 7%N);
                 RError (Some refused); RError None] in
     ∃ r, EvBuild 7%N r ∈ events o
          ∧ ∀ err, r = Some err →
              ret o = Err (ErrBuilding err)
              ∧ ∀ r', EvSetAutostart 7%N true r' ∉ events o).
Proof.
  split.
  - intros o.
    destruct (create_builds_unless_logical_without_devices (Conn := Script)
                Scripted.xmlMarshallIndented Scripted.transformResourceXML
                Scripted.xmlUnmarshal 3 connected logicalPool
                [RPool (Err notFound); RPool (Ok 7%N); RError None;
                 RError None; RError None; RString (Ok "uuid-1");
                 RPool (Ok 7%N); RPool (Err notFound); RError None])
      as [Hadopt _].
    destruct (Hadopt eq_refl eq_refl) as [Hquiet Hgoes].
    split; [reflexivity|]. split; [exact Hquiet|].
    apply (Hgoes (described {| Type_ := "logical"; Name := "vg0";
                               Target := None; Source := None |})).
    vm_compute. find_event.
  - intros o.
    destruct (create_builds_unless_logical_without_devices (Conn := Script)
                Scripted.xmlMarshallIndented Scripted.transformResourceXML
                Scripted.xmlUnmarshal 3 connected logicalWithDevices
                [RPool (Err notFound); RPool (Ok 7%N);
                 RError (Some refused); RError None])
      as [_ Hbuild].
    assert (0 < GetInt logicalWithDevices "source_devices.#") as Hcount
      by reflexivity.
    apply (Hbuild (or_intror (conj eq_refl Hcount))
             (described
                {| Type_ := "logical"; Name := "vg0"; Target := None;
                   Source := Some {| Device := sourceDevices
                                                 logicalWithDevices |} |})).
    vm_compute. find_event.
Defined.

Lemma read_surfaces_path_only_for_other_types_witness :
  let o := Scripted.resourceLibvirtPoolRead
             (resource "uuid-2" [("name", VString "vg0");
                                 ("type", VString "logical")])
             [RPool (Ok 7%N); RString (Ok "vg0"); RInfo (Ok someInfo);
              RString (Ok (described logicalDefinition)); RError None] in
  ret o = Ok tt
  ∧ Forall (λ e, isSetPath e = false) (events o)
  ∧ attrs (rd o) !! "path" = None.
Proof.
  intros o.
  destruct (read_surfaces_path_only_for_other_types (Conn := Script)
              Scripted.xmlUnmarshal connected
              (resource "uuid-2" [("name", VString "vg0");
                                  ("type", VString "logical")])
              [RPool (Ok 7%N); RString (Ok "vg0"); RInfo (Ok someInfo);
               RString (Ok (described logicalDefinition)); RError None])
    as [Hlogical _].
  destruct (Hlogical 7%N (described logicalDefinition) logicalDefinition)
    as [Hquiet Hpath].
  - vm_compute. find_event.
  - reflexivity.
  - reflexivity.
  - split; [reflexivity|]. split; [exact Hquiet|]. exact Hpath.
Defined.


(** The scenario of the spec: a dir pool is created on a hypervisor that
    describes it with the submitted text, and the read that ends create
    surfaces its name, type and path under the recorded identifier. *)
Example create_then_read_dir_pool :
  let o := Scripted.resourceLibvirtPoolCreate dirPool
             (defineAndStart
              ++ [RPool (Ok 7%N); RPool (Ok 7%N); RString (Ok "pool1");
                  RInfo (Ok someInfo); RString (Ok (described dirDefinition));
                  RError None; RError None])%list in
  ret o = Ok tt
  ∧ Id (rd o) = "uuid-1"
  ∧ attrs (rd o) !! "name" = Some (VString "pool1")
  ∧ attrs (rd o) !! "type" = Some (VString "dir")
  ∧ attrs (rd o) !! "path" = Some (VString "/tmp/x")
  ∧ EvStoragePoolDefineXML (described dirDefinition) (Ok 7%N) ∈ events o.
Proof.
  repeat split; try reflexivity.
  vm_compute. find_event.
Qed.

End Runs.

(** ** More properties: the acceptance-test helpers *)

(** The attribute check passes on the states that bind the key to the
    value. *)
Lemma attribute_check_passes (name key value : string)
    (instanceState : InstanceState) :
  testImportStateCheckResourceAttr name key value instanceState = None
  ↔ Attributes instanceState !! key = Some value.
Proof.
  unfold testImportStateCheckResourceAttr.
  destruct (Attributes instanceState !! key) as [v|]; [case_decide|];
    split; intros; congruence.
Qed.

(** X1: the attribute check returns nil exactly when the imported state has
    the attribute with the expected value; a missing attribute and a
    different value are told apart. *)
Theorem testImportStateCheckResourceAttr_spec (name key value : string)
    (instanceState : InstanceState) :
  (testImportStateCheckResourceAttr name key value instanceState = None
   ↔ Attributes instanceState !! key = Some value)
  ∧ (testImportStateCheckResourceAttr name key value instanceState
     = Some (AttributeNotFound name key)
     ↔ Attributes instanceState !! key = None)
  ∧ (∀ got,
       testImportStateCheckResourceAttr name key value instanceState
       = Some (AttributeMismatch name key value got)
       ↔ Attributes instanceState !! key = Some got ∧ got ≠ value).
Proof.
  unfold testImportStateCheckResourceAttr.
  destruct (Attributes instanceState !! key) as [v|]; [case_decide|];
    repeat split; try (intuition congruence).
Qed.

(** The loop of the composed check: nil when every check left is nil;
    otherwise the error of the first check that fails, under its position
    counted from one. *)
Lemma composeFrom_spec (i n : nat) (fs : list ImportStateCheckFunc)
    (instanceState : InstanceState) :
  (composeFrom i n fs instanceState = None
   ↔ Forall (λ f, f instanceState = None) fs)
  ∧ (∀ e, composeFrom i n fs instanceState = Some e →
       ∃ (j : nat) f err,
         e = CheckFailed (i + j + 1) n err
         ∧ fs !! j = Some f
         ∧ f instanceState = Some err
         ∧ Forall (λ g, g instanceState = None) (take j fs)).
Proof.
  revert i. induction fs as [|f fs IH]; intros i; simpl.
  - split; [split; auto|]. intros e [=].
  - destruct (f instanceState) as [err|] eqn:Hf.
    + split.
      * split; [done|]. intros H. apply Forall_cons in H as [H _].
        congruence.
      * intros e [= <-]. exists 0%nat, f, err.
        rewrite Nat.add_0_r. by repeat split.
    + destruct (IH (S i)) as [IHnil IHerr]. split.
      * rewrite IHnil. rewrite Forall_cons. intuition congruence.
      * intros e He. destruct (IHerr e He) as (j & g & err & -> & Hg & Herr & Hbefore).
        exists (S j), g, err. repeat split; auto.
        -- f_equal. lia.
        -- simpl. by constructor.
Qed.

(** X2: the composed check returns nil exactly when every check does;
    otherwise its error carries the position, counted from one, of the first
    check that fails, the number of checks, and that check's error. *)
Theorem composeTestImportStateCheckFunc_spec (fs : list ImportStateCheckFunc)
    (instanceState : InstanceState) :
  (composeTestImportStateCheckFunc fs instanceState = None
   ↔ Forall (λ f, f instanceState = None) fs)
  ∧ (∀ e, composeTestImportStateCheckFunc fs instanceState = Some e →
       ∃ (j : nat) f err,
         e = CheckFailed (j + 1) (length fs) err
         ∧ fs !! j = Some f
         ∧ f instanceState = Some err
         ∧ Forall (λ g, g instanceState = None) (take j fs)).
Proof.
  unfold composeTestImportStateCheckFunc.
  destruct (composeFrom_spec 0 (length fs) fs instanceState) as [Hnil Herr].
  split; [exact Hnil|]. intros e He.
  destruct (Herr e He) as (j & f & err & -> & ?). by exists j, f, err.
Qed.

Lemma importStateCheckFrom_spec (i n : nat)
    (resourceName randomPoolName poolPath : string)
    (instanceState : list InstanceState) :
  (importStateCheckFrom i n resourceName randomPoolName poolPath
     instanceState = None
   ↔ Forall (importedAs randomPoolName poolPath) instanceState)
  ∧ (∀ e, importStateCheckFrom i n resourceName randomPoolName poolPath
            instanceState = Some e →
       ∃ (j : nat) f err,
         e = InstanceStateFailed (i + j + 1) n err
         ∧ instanceState !! j = Some f
         ∧ ¬ importedAs randomPoolName poolPath f
         ∧ Forall (importedAs randomPoolName poolPath)
             (take j instanceState)).
Proof.
  revert i. induction instanceState as [|f rest IH]; intros i.
  - simpl. split; [split; auto|]. intros e [=].
  - cbn [importStateCheckFrom].
    pose proof (composeFrom_spec 0 3
                  [testImportStateCheckResourceAttr resourceName "name"
                     randomPoolName;
                   testImportStateCheckResourceAttr resourceName "type" "dir";
                   testImportStateCheckResourceAttr resourceName "path"
                     poolPath] f) as [Hnil _].
    rewrite !Forall_cons, Forall_nil in Hnil.
    rewrite !attribute_check_passes in Hnil.
    change (composeFrom 0 3 ?fs f)
      with (composeTestImportStateCheckFunc fs f) in Hnil.
    assert (composeTestImportStateCheckFunc
              [testImportStateCheckResourceAttr resourceName "name"
                 randomPoolName;
               testImportStateCheckResourceAttr resourceName "type" "dir";
               testImportStateCheckResourceAttr resourceName "path" poolPath]
              f = None ↔ importedAs randomPoolName poolPath f) as Hf
      by (unfold importedAs; tauto).
    destruct (composeTestImportStateCheckFunc _ f) as [err|].
    + split.
      * split; [done|]. intros H. apply Forall_cons in H as [H _].
        apply Hf in H. done.
      * intros e [= <-]. exists 0%nat, f, err. rewrite Nat.add_0_r.
        repeat split; auto. intros H. apply Hf in H. done.
    + destruct (IH (S i)) as [IHnil IHerr]. split.
      * rewrite IHnil, Forall_cons. tauto.
      * intros e He.
        destruct (IHerr e He) as (j & g & err & -> & Hg & Herr & Hbefore).
        exists (S j), g, err. repeat split; auto.
        -- f_equal. lia.
        -- simpl. constructor; [by apply Hf|done].
Qed.

(** X3: the import check of the test passes exactly when every imported
    state has the pool's name, the type dir and the pool's path; otherwise
    its error carries the position of the first state that has not. *)
Theorem importStateCheck_spec (resourceName randomPoolName poolPath : string)
    (instanceState : list InstanceState) :
  (importStateCheck resourceName randomPoolName poolPath instanceState = None
   ↔ Forall (importedAs randomPoolName poolPath) instanceState)
  ∧ (∀ e, importStateCheck resourceName randomPoolName poolPath
            instanceState = Some e →
       ∃ (j : nat) f err,
         e = InstanceStateFailed (j + 1) (length instanceState) err
         ∧ instanceState !! j = Some f
         ∧ ¬ importedAs randomPoolName poolPath f
         ∧ Forall (importedAs randomPoolName poolPath)
             (take j instanceState)).
Proof.
  unfold importStateCheck.
  destruct (importStateCheckFrom_spec 0 (length instanceState) resourceName
              randomPoolName poolPath instanceState) as [Hnil Herr].
  split; [exact Hnil|]. intros e He.
  destruct (Herr e He) as (j & f & err & -> & ?). by exists j, f, err.
Qed.

(** Closes a goal in which an event is among events that cannot hold it. *)
Ltac absent_event :=
  match goal with
  | H : ?x ∈ ?l, F : Forall _ ?l |- _ =>
      rewrite Forall_forall in F; specialize (F x H); discriminate F
  end.

(** Splits a membership among the events of a path into its cases. *)
Ltac event_cases H :=
  repeat first [ rewrite elem_of_cons in H | rewrite elem_of_app in H
               | rewrite elem_of_nil in H ];
  destruct_or?; simplify_eq; try done; try absent_event.

Section MoreProperties.
Context {Conn : Type} `{!Libvirt Conn}.
Variable xmlMarshallIndented : option StoragePool → result string string.
Variable transformResourceXML : string → ResourceData → result string string.
Variable xmlUnmarshal : string → StoragePool * option string.
Variable poolExistsAttempts : nat.

Set Default Proof Using "Type".

Local Abbreviation Read := (resourceLibvirtPoolRead xmlUnmarshal).
Local Abbreviation CreatePool :=
  (resourceLibvirtPoolCreate xmlMarshallIndented transformResourceXML
     xmlUnmarshal poolExistsAttempts).

(** X4: the destroy check looks up, in order, the resources of type
    libvirt_pool and no other; it returns nil when every one of these
    lookups fails, and at the first pool found it stops with the error that
    names its id.  The resource data is not touched. *)
Theorem testAccCheckLibvirtPoolDestroy_spec (resources : list ResourceState)
    (d : ResourceData) (c : Conn) :
  let pools := filter (λ rs, ResourceType rs = "libvirt_pool") resources in
  let o := testAccCheckLibvirtPoolDestroy resources d c in
  rd o = d
  ∧ ((ret o = Ok None
      ∧ ∃ errs, length errs = length pools
                ∧ events o = failedLookups pools errs)
     ∨ ∃ (j : nat) rs p errs,
         pools !! j = Some rs
         ∧ length errs = j
         ∧ ret o = Ok (Some (ErrWaitingDestroyed (PrimaryID rs)))
         ∧ events o
           = (failedLookups (take j pools) errs
              ++ [EvLookupStoragePoolByUUIDString (PrimaryID rs) (Ok p)])%list).
Proof.
  revert c. induction resources as [|rs resources IH]; intros c pools o.
  - subst o pools. simpl. unfold_monad. split; [done|]. left.
    split; [done|]. by exists [].
  - subst o. simpl. case_decide as Htype.
    + subst pools. rewrite filter_cons_False by done. apply IH.
    + subst pools. rewrite filter_cons_True by done.
      unfold_monad.
      destruct (LookupStoragePoolByUUIDString (PrimaryID rs) c)
        as [[p|err] c'].
      * simpl. split; [done|]. right. exists 0%nat, rs, p, [].
        by repeat split.
      * specialize (IH c'). simpl in IH.
        destruct (testAccCheckLibvirtPoolDestroy resources d c')
          as [r d' c'' evs].
        simpl in *. destruct IH as [-> IH]. split; [done|].
        destruct IH as [[-> (errs & Hlen & ->)]
                       |(j & rs' & p & errs & Hj & Hlen & -> & ->)].
        -- left. split; [done|]. exists (err :: errs).
           split; [simpl; by rewrite Hlen|done].
        -- right. exists (S j), rs', p, (err :: errs).
           repeat split; auto. simpl. by rewrite Hlen.
Qed.

(** X5: the check that a pool is gone asks the pool for its identifier and
    looks that up; it returns nil exactly when the identifier was obtained
    and the lookup failed, and the error of a pool still there exactly when
    the lookup found one, which it then frees.  It changes neither the
    resource data nor the hypervisor. *)
Theorem testAccCheckLibvirtPoolDoesNotExists_spec (pool : Pool)
    (d : ResourceData) (c : Conn) :
  let o := testAccCheckLibvirtPoolDoesNotExists pool d c in
  rd o = d
  ∧ Forall (λ e, hypervisorMutation e = false) (events o)
  ∧ (ret o = Ok None
     ↔ ∃ id err,
         events o = [EvGetUUIDString pool (Ok id);
                     EvLookupStoragePoolByUUIDString id (Err err)])
  ∧ (∀ id, ret o = Ok (Some (ErrStillExists id))
           ↔ ∃ p r,
               events o = [EvGetUUIDString pool (Ok id);
                           EvLookupStoragePoolByUUIDString id (Ok p);
                           EvFree p r])
  ∧ (∀ err, ret o = Ok (Some (ErrCantRetrievePoolID err))
            ↔ events o = [EvGetUUIDString pool (Err err)]).
Proof.
  intros o. subst o. unfold testAccCheckLibvirtPoolDoesNotExists.
  unfold_monad.
  repeat break_match; simplify_eq; cbn [ret rd hv events app].
  all: split; [reflexivity|]; split; [repeat constructor|].
  all: repeat split; intros; destruct_and?; simplify_eq; try done.
  all: repeat match goal with
              | H : ∃ _, _ |- _ => destruct H
              end; simplify_eq; try done.
  all: by do 2 eexists.
Qed.

(** X6: the existence check never changes the resource data nor the
    hypervisor; it makes no call exactly when the connection is nil, and it
    answers true exactly when its lookup found a pool, which it frees before
    it returns. *)
Theorem exists_only_looks_up (meta : Client) (d : ResourceData) (c : Conn) :
  let o := resourceLibvirtPoolExists meta d c in
  rd o = d
  ∧ Forall (λ e, hypervisorMutation e = false) (events o)
  ∧ (events o = [] ↔ libvirt_nil meta = true)
  ∧ (ret o = Ok true
     ↔ ∃ p r, events o
              = [EvLookupStoragePoolByUUIDString (Id d) (Ok p); EvFree p r]).
Proof.
  intros o. subst o. unfold resourceLibvirtPoolExists. unfold_monad.
  repeat break_match; simplify_eq/=.
  all: split; [reflexivity|]; split; [repeat constructor|]; split.
  all: try (split; [intros [=]|intros [=]]; done).
  all: try (split; [done|intros (? & ? & [=])]).
  all: try (split; [intros [=]|intros (? & ? & [=])]).
  all: first [by do 2 eexists | reflexivity].
Qed.

Lemma lookup_withAttr_eq (key : string) (v : Value) (d : ResourceData) :
  key ∈ schemaKeys → attrs (withAttr key v d) !! key = Some v.
Proof.
  intros Hkey. unfold withAttr. rewrite bool_decide_eq_true_2 by done.
  simpl. apply lookup_insert_eq.
Qed.

(** Reduces the projections of the outcome of a path, and nothing else. *)
Ltac path_simpl := simplify_eq; cbn [ret rd hv events app] in *.

(** Reads an attribute back through the writes of a run. *)
Ltac attr_lookup :=
  repeat first
    [ rewrite lookup_withAttr_eq by (unfold schemaKeys; find_event)
    | rewrite lookup_withAttr_ne by done ].


Lemma partial_withAttr (key : string) (v : Value) (d : ResourceData) :
  partial (withAttr key v d) = partial d
  ∧ partialMap (withAttr key v d) = partialMap d.
Proof. unfold withAttr. by case_bool_decide. Qed.

(** X8: a read never changes the hypervisor; of the resource data it leaves
    every attribute other than name, capacity, allocation, available, path
    and type as it was, as well as the partial-state mode; and it changes
    the identifier only by clearing it after a failed lookup. *)
Theorem read_writes_only_its_attributes (meta : Client) (d : ResourceData)
    (c : Conn) :
  let o := Read meta d c in
  Forall (λ e, hypervisorMutation e = false) (events o)
  ∧ (∀ k, k ∉ readKeys → attrs (rd o) !! k = attrs d !! k)
  ∧ partial (rd o) = partial d
  ∧ partialMap (rd o) = partialMap d
  ∧ (Id (rd o) ≠ Id d →
       Id (rd o) = ""
       ∧ ∃ e, EvLookupStoragePoolByUUIDString (Id d) (Err e) ∈ events o).
Proof.
  intros o. subst o. unfold resourceLibvirtPoolRead. unfold_monad.
  repeat break_match; path_simpl.
  all: split; [repeat constructor|].
  all: split;
    [ intros k Hk;
      rewrite ?lookup_withAttr_ne
        by (intros <-; apply Hk; unfold readKeys; find_event);
      reflexivity |].
  all: rewrite ?Id_withAttr, ?(proj1 (partial_withAttr _ _ _)),
         ?(proj2 (partial_withAttr _ _ _)).
  all: split; [reflexivity|]; split; [reflexivity|].
  all: intros Hid; try done.
  split; [reflexivity|]. eexists. find_event.
Qed.

(** X9: a read that found the pool frees it as its last effect, whether it
    returns nil or an error. *)
Theorem read_frees_pool_last (meta : Client) (d : ResourceData) (c : Conn)
    (p : Pool) :
  EvLookupStoragePoolByUUIDString (Id d) (Ok p) ∈ events (Read meta d c) →
  ∃ r, last (events (Read meta d c)) = Some (EvFree p r).
Proof.
  unfold resourceLibvirtPoolRead. unfold_monad.
  repeat break_match; path_simpl; intros Hin; event_cases Hin.
  all: by eexists.
Qed.

(** X10: a read that returns an error has kept the identifier and has
    written neither the path nor the type; when the error is that of the
    name, or the connection is nil, it has written nothing at all. *)
Theorem failed_read_keeps_identity (meta : Client) (d : ResourceData)
    (c : Conn) (e : PoolError) :
  let o := Read meta d c in
  ret o = Err e →
  Id (rd o) = Id d
  ∧ attrs (rd o) !! "path" = attrs d !! "path"
  ∧ attrs (rd o) !! "type" = attrs d !! "type"
  ∧ ((e = ErrLibVirtConIsNil ∨ ∃ err, e = ErrReadName err) → rd o = d).
Proof.
  intros o. subst o. unfold resourceLibvirtPoolRead. unfold_monad.
  repeat break_match; path_simpl; intros Hret; simplify_eq.
  all: rewrite ?Id_withAttr; attr_lookup.
  all: repeat split; try reflexivity.
  all: intros [?|[? ?]]; done.
Qed.

(** X11: [newDefPoolFromLibvirt] asks the pool for its name and then for its
    description, and nothing else; it returns the definition parsed from that
    description, or the error of the first step that failed, the later two
    under the pool's name.  It changes neither the resource data nor the
    hypervisor. *)
Theorem newDefPoolFromLibvirt_spec (pool : Pool) (d : ResourceData)
    (c : Conn) :
  let o := newDefPoolFromLibvirt xmlUnmarshal pool d c in
  rd o = d
  ∧ Forall (λ e, hypervisorMutation e = false) (events o)
  ∧ (∀ poolDef, ret o = Ok poolDef ↔
       ∃ name xml,
         events o = [EvGetName pool (Ok name); EvGetXMLDesc pool (Ok xml)]
         ∧ xmlUnmarshal xml = (poolDef, None))
  ∧ (∀ err, ret o = Err (ErrDefName err) ↔
       events o = [EvGetName pool (Err err)])
  ∧ (∀ name err, ret o = Err (ErrDefXMLDesc name err) ↔
       events o = [EvGetName pool (Ok name); EvGetXMLDesc pool (Err err)])
  ∧ (∀ name err, ret o = Err (ErrDefFromXML name err) ↔
       ∃ xml partly,
         events o = [EvGetName pool (Ok name); EvGetXMLDesc pool (Ok xml)]
         ∧ xmlUnmarshal xml = (partly, Some err)).
Proof.
  intros o. subst o. unfold newDefPoolFromLibvirt, newDefPoolFromXML.
  unfold_monad.
  repeat break_match; path_simpl.
  all: split; [reflexivity|]; split; [repeat constructor|].
  all: repeat split; intros; destruct_and?; simplify_eq; try done.
  all: repeat match goal with
              | H : ∃ _, _ |- _ => destruct H
              end; destruct_and?; simplify_eq; try congruence.
  all: try (do 2 eexists; split; [reflexivity|eassumption]).
Qed.

(** X12: the definition create builds has the declared type and name.  For
    a dir pool it has the declared path, which is not empty, as its target
    and no source, and it is to be built; for a logical pool it has no
    target, its source holds the declared devices and is absent when there
    are none, and it is to be built exactly when there are some.  A built
    definition never has both a target and a source. *)
Theorem newPoolDef_shape (d : ResourceData) (poolType poolName : string)
    (poolDef : StoragePool) (needToBuild : bool) :
  newPoolDef d poolType poolName = Ok (Some poolDef, needToBuild) →
  Type_ poolDef = poolType
  ∧ Name poolDef = poolName
  ∧ (Target poolDef = None ∨ Source poolDef = None)
  ∧ (poolType = "dir" →
       Target poolDef = Some {| Path := GetString d "path" |}
       ∧ GetString d "path" ≠ ""
       ∧ Source poolDef = None
       ∧ needToBuild = true)
  ∧ (poolType = "logical" →
       Target poolDef = None
       ∧ definitionDevices poolDef = sourceDevices d
       ∧ (Source poolDef = None ↔ sourceDevices d = [])
       ∧ (needToBuild = false ↔ sourceDevices d = [])).
Proof.
  unfold newPoolDef, definitionDevices. intros Hdef.
  repeat case_decide; try done;
    try destruct (sourceDevices d) as [|dev devs] eqn:Hdevs;
    simplify_eq; simpl; repeat split; auto; try done; try congruence.
Qed.

(** X13: the devices create reads are as many as [source_devices.#] says,
    none when that count is zero or negative, and the device at position [i]
    is the attribute [source_devices.i]. *)
Theorem sourceDevices_lookup (d : ResourceData) :
  length (sourceDevices d) = Z.to_nat (GetInt d "source_devices.#")
  ∧ (GetInt d "source_devices.#" ≤ 0 → sourceDevices d = [])
  ∧ (∀ i : nat,
       (i < Z.to_nat (GetInt d "source_devices.#"))%nat →
       sourceDevices d !! i
       = Some {| DevicePath := GetString d ("source_devices." +:+ pretty i) |}).
Proof.
  unfold sourceDevices. split; [|split].
  - by rewrite length_fmap, length_seq.
  - intros Hn. replace (Z.to_nat _) with 0%nat by lia. done.
  - intros i Hi. rewrite list_lookup_fmap, lookup_seq_lt by done. done.
Qed.

(** What the checks on events need of a read: its result, its events, and
    that it keeps the identifier unless its one lookup failed. *)
Lemma read_tail (meta : Client) (d : ResourceData) (c : Conn) :
  readResult (ret (Read meta d c)) = true
  ∧ Forall (λ e, readEvent e = true) (events (Read meta d c))
  ∧ (Id (rd (Read meta d c)) = Id d
     ∨ ret (Read meta d c) = Ok tt
       ∧ Id (rd (Read meta d c)) = ""
       ∧ ∃ e, EvLookupStoragePoolByUUIDString (Id d) (Err e)
              ∈ events (Read meta d c))
  ∧ (ret (Read meta d c) = Err ErrLibVirtConIsNil →
       libvirt_nil meta = true).
Proof.
  unfold resourceLibvirtPoolRead. unfold_monad.
  repeat break_match; path_simpl; rewrite ?Id_withAttr.
  all: split; [reflexivity|]; split; [repeat constructor|].
  all: split; [|done].
  all: first [by left | right].
  split; [done|]. split; [done|]. eexists. find_event.
Qed.

(** Names what is known of the poll and of the read a path of create ran. *)
Ltac known_tails :=
  repeat match goal with
  | H : poolWaitForExists ?n ?uuid ?d ?c = _ |- _ =>
      let S := fresh "Hpoll" in
      pose proof (poolWaitForExistsLoop_spec n uuid d c) as S;
      unfold poolWaitForExists in H; rewrite H in S; clear H;
      cbn [ret rd hv events] in S; destruct S as (? & ? & ?)
  | H : resourceLibvirtPoolRead ?u ?meta ?d ?c = _ |- _ =>
      let S := fresh "Hread" in
      pose proof (read_tail meta d c) as S;
      rewrite H in S; clear H;
      cbn [ret rd hv events] in S; destruct S as (? & ? & ? & ?)
  end.

(** Proves a property of every event of a path of create. *)
Ltac every_event :=
  repeat (apply Forall_cons; split; [reflexivity|]);
  rewrite ?Forall_app; repeat split; try apply Forall_nil_2;
  try (repeat (apply Forall_cons; split; [reflexivity|]);
       apply Forall_nil_2);
  try (eapply Forall_impl; [eassumption|]; by intros []).

(** The paths of a run of create, each with its outcome reduced. *)
Ltac create_paths :=
  unfold resourceLibvirtPoolCreate; unfold_monad;
  repeat break_match; known_tails; path_simpl.

(** X14: create has no effect at all, not even taking the name lock,
    exactly when the connection is nil or the type is neither dir nor
    logical; it then returns the matching error and leaves the resource data
    and the connection as they were. *)
Theorem create_no_effect_iff_rejected_early (meta : Client)
    (d : ResourceData) (c : Conn) :
  let o := CreatePool meta d c in
  (events o = []
   ↔ libvirt_nil meta = true
     ∨ (GetString d "type" ≠ "dir" ∧ GetString d "type" ≠ "logical"))
  ∧ (events o = [] →
       rd o = d ∧ hv o = c
       ∧ ret o = Err (if libvirt_nil meta then ErrLibVirtConIsNil
                      else ErrUnsupportedType)).
Proof.
  intros o. subst o. create_paths.
  all: split; [split|]; try done; try (by left); try (by right).
  all: intros [?|?]; done.
Qed.



(** X16: when create has defined a pool, its last two effects are to free
    that pool and to release the name lock, on every way out. *)
Theorem create_frees_defined_pool_last (meta : Client) (d : ResourceData)
    (c : Conn) (xml : string) (p : Pool) :
  EvStoragePoolDefineXML xml (Ok p) ∈ events (CreatePool meta d c) →
  ∃ r, [EvFree p r; EvUnlock (GetString d "name")]
       `suffix_of` events (CreatePool meta d c).
Proof.
  create_paths.
  all: intros Hin; event_cases Hin.
  all: eexists; rewrite <- ?app_assoc;
    repeat first [ by exists [] | apply suffix_cons_r | apply suffix_app_r ].
Qed.

(** Events that are no step of create do not count for the order of its
    steps. *)
Lemma stepsInOrder_other (n : nat) (l l' : list Event) :
  Forall (λ e, stepRank e = None) l →
  stepsInOrder n (l ++ l') = stepsInOrder n l'.
Proof.
  induction 1 as [|e l He _ IH]; [done|]. simpl. by rewrite He.
Qed.

(** X17: in every run of create the steps define, build, autostart, start,
    refresh and get-id are each made at most once and in this order, and a
    step that answers with an error is the last one made. *)
Theorem create_steps_in_order (meta : Client) (d : ResourceData) (c : Conn) :
  stepsInOrder 0 (events (CreatePool meta d c)) = true.
Proof.
  create_paths.
  all: cbn [stepsInOrder stepRank stepFailed forallb Nat.ltb Nat.leb andb
            bool_decide decide_rel].
  all: rewrite <- ?app_assoc.
  all: repeat (rewrite stepsInOrder_other
                 by (eapply Forall_impl; [eassumption|]; by intros [])).
  all: reflexivity.
Qed.

(** When the type-specific validation fails on the source devices. *)
Lemma newPoolDef_source_devices (d : ResourceData)
    (poolType poolName : string) :
  newPoolDef d poolType poolName = Err ErrSourceDevicesForbidden
  ↔ poolType = "dir" ∧ GetString d "path" ≠ ""
    ∧ GetInt d "source_devices.#" ≠ 0.
Proof.
  unfold newPoolDef.
  repeat case_decide; try destruct (sourceDevices d); split;
    try done; try (intros (? & ? & ?); congruence); intros [=].
Qed.

(** X18: a validation error of create comes after the lookup of the name
    has found nothing and before anything is defined: the run is lock,
    lookup, unlock, and the resource data is as it was.  The error for
    source devices is returned exactly for a dir pool with a path and a
    device count other than zero whose name is free. *)
Theorem create_validation_error_defines_nothing (meta : Client)
    (d : ResourceData) (c : Conn) :
  let name := GetString d "name" in
  let o := CreatePool meta d c in
  (∀ e, ret o = Err e → isValidationError e = true →
     rd o = d
     ∧ ∃ err, events o
              = [EvLock name; EvLookupStoragePoolByName name (Err err);
                 EvUnlock name])
  ∧ (ret o = Err ErrSourceDevicesForbidden
     ↔ libvirt_nil meta = false
       ∧ GetString d "type" = "dir"
       ∧ GetString d "path" ≠ ""
       ∧ GetInt d "source_devices.#" ≠ 0
       ∧ ∃ err, (LookupStoragePoolByName name c).1 = Err err).
Proof.
  intros name o. subst o name. create_paths.
  all: split.
  all: try (intros ? Hret Hval; simplify_eq; cbn in Hval;
            first
              [ discriminate Hval
              | destruct_or?; destruct_and?; simplify_eq; discriminate
              | exfalso;
                match type of Hval with
                | isValidationError ?x = true => destruct x
                end; discriminate
              | (split; [reflexivity|]); by eexists ]).
  all: split.
  all: try (intros Hret; simplify_eq;
            first
              [ destruct_or?; destruct_and?; simplify_eq; discriminate
              | match goal with
                | H : newPoolDef _ _ _ = Err _ |- _ =>
                    apply newPoolDef_source_devices in H as (? & ? & ?)
                end;
                repeat split; try done; by eexists ]).
  all: try (intros (Hlive & Htype & Hpath & Hcount & ? & Hfree);
            pose proof (proj2 (newPoolDef_source_devices d
                                 (GetString d "type") (GetString d "name"))
                          (conj Htype (conj Hpath Hcount))) as Hdef;
            first
              [ discriminate Hlive
              | discriminate Hfree
              | congruence
              | exfalso; intuition congruence ]).
Qed.

Lemma attrs_withAttr_id (v : Value) (d : ResourceData) :
  withAttr "id" v d = d.
Proof. reflexivity. Qed.

(** X19: a create that returns nil has defined a pool, made every later
    step without an error, obtained its identifier and recorded it; the
    resource data then holds that identifier, unless the final read did not
    find the pool under it and cleared it. *)
Theorem create_success_identifier (meta : Client) (d : ResourceData)
    (c : Conn) :
  let o := CreatePool meta d c in
  ret o = Ok tt →
  Forall (λ e, stepFailed e = false) (events o)
  ∧ ∃ xml p uuid,
      EvStoragePoolDefineXML xml (Ok p) ∈ events o
      ∧ EvGetUUIDString p (Ok uuid) ∈ events o
      ∧ EvSetId uuid ∈ events o
      ∧ (Id (rd o) = uuid
         ∨ Id (rd o) = ""
           ∧ ∃ e, EvLookupStoragePoolByUUIDString uuid (Err e) ∈ events o).
Proof.
  intros o. subst o. create_paths.
  all: intros Hret; simplify_eq.
  all: try (destruct_or?; simplify_eq; discriminate).
  all: split; [every_event|].
  all: do 3 eexists.
  all: split; [find_event|]; split; [find_event|]; split; [find_event|].
  all: rewrite ?attrs_withAttr_id in *; cbn [Id withPartial withPartialKey
                                              withId] in *.
  all: match goal with
       | H : Id _ = _ ∨ _ |- _ =>
           destruct H as [Hkeep|(_ & Hclear & err0 & Hin0)]
       end.
  all: first
    [ by left
    | right; split; [done|];
      exists err0; rewrite !elem_of_cons, !elem_of_app; tauto ].
Qed.

(** X20: when create returns an error that is not one of its final read,
    the attributes are exactly those it was given: create itself writes
    none, its write of the id attribute being no key of the schema. *)
Theorem create_failure_keeps_attributes (meta : Client) (d : ResourceData)
    (c : Conn) (e : PoolError) :
  let o := CreatePool meta d c in
  ret o = Err e → readResult (Err e) = false →
  attrs (rd o) = attrs d.
Proof.
  intros o. subst o. create_paths.
  all: intros Hret Hown; simplify_eq; try reflexivity.
  all: try discriminate Hown.
  all: congruence.
Qed.

End MoreProperties.

(** ** More runs on the scripted connection *)

Section MoreRuns.
Import Scripted ScriptedRuns.


Lemma read_frees_pool_last_witness :
  ∃ r, last (events (Scripted.resourceLibvirtPoolRead created readThrough))
       = Some (EvFree 7%N r).
Proof.
  apply (read_frees_pool_last (Conn := Script) Scripted.xmlUnmarshal
           connected created readThrough 7%N).
  vm_compute. find_event.
Defined.

Lemma failed_read_keeps_identity_witness :
  let o := Scripted.resourceLibvirtPoolRead created
             [RPool (Ok 7%N); RString (Ok "pool2"); RInfo (Err unreachable);
              RError None] in
  Id (rd o) = Id created
  ∧ attrs (rd o) !! "path" = attrs created !! "path"
  ∧ attrs (rd o) !! "type" = attrs created !! "type"
  ∧ ((ErrReadInfo unreachable = ErrLibVirtConIsNil
      ∨ ∃ err, ErrReadInfo unreachable = ErrReadName err) → rd o = created).
Proof.
  apply (failed_read_keeps_identity (Conn := Script) Scripted.xmlUnmarshal
           connected created
           [RPool (Ok 7%N); RString (Ok "pool2"); RInfo (Err unreachable);
            RError None] (ErrReadInfo unreachable)).
  reflexivity.
Defined.

Lemma newPoolDef_shape_witness :
  Type_ dirDefinition = "dir"
  ∧ Name dirDefinition = "pool1"
  ∧ (Target dirDefinition = None ∨ Source dirDefinition = None)
  ∧ ("dir" = "dir" →
       Target dirDefinition = Some {| Path := GetString dirPool "path" |}
       ∧ GetString dirPool "path" ≠ ""
       ∧ Source dirDefinition = None
       ∧ true = true)
  ∧ ("dir" = "logical" →
       Target dirDefinition = None
       ∧ definitionDevices dirDefinition = sourceDevices dirPool
       ∧ (Source dirDefinition = None ↔ sourceDevices dirPool = [])
       ∧ (true = false ↔ sourceDevices dirPool = [])).
Proof.
  apply (newPoolDef_shape dirPool "dir" "pool1" dirDefinition true).
  reflexivity.
Defined.

Lemma create_frees_defined_pool_last_witness :
  ∃ r, [EvFree 7%N r; EvUnlock (GetString dirPool "name")]
       `suffix_of` events (Scripted.resourceLibvirtPoolCreate dirPool
                             createThrough).
Proof.
  apply (create_frees_defined_pool_last (Conn := Script)
           Scripted.xmlMarshallIndented Scripted.transformResourceXML
           Scripted.xmlUnmarshal 3 connected dirPool createThrough
           (described dirDefinition) 7%N).
  vm_compute. find_event.
Defined.

Lemma create_success_identifier_witness :
  let o := Scripted.resourceLibvirtPoolCreate dirPool createThrough in
  Forall (λ e, stepFailed e = false) (events o)
  ∧ ∃ xml p uuid,
      EvStoragePoolDefineXML xml (Ok p) ∈ events o
      ∧ EvGetUUIDString p (Ok uuid) ∈ events o
      ∧ EvSetId uuid ∈ events o
      ∧ (Id (rd o) = uuid
         ∨ Id (rd o) = ""
           ∧ ∃ e, EvLookupStoragePoolByUUIDString uuid (Err e) ∈ events o).
Proof.
  apply (create_success_identifier (Conn := Script)
           Scripted.xmlMarshallIndented Scripted.transformResourceXML
           Scripted.xmlUnmarshal 3 connected dirPool createThrough).
  reflexivity.
Defined.

Lemma create_failure_keeps_attributes_witness :
  attrs (rd (Scripted.resourceLibvirtPoolCreate dirPool createNeverSeen))
  = attrs dirPool.
Proof.
  apply (create_failure_keeps_attributes (Conn := Script)
           Scripted.xmlMarshallIndented Scripted.transformResourceXML
           Scripted.xmlUnmarshal 3 connected dirPool createNeverSeen
           (ErrWaitForExists "uuid-1")); reflexivity.
Defined.

(** A create returns nil with the identifier cleared when the pool is gone
    again by the time of its final read. *)
Example create_returns_nil_without_identifier :
  let o := Scripted.resourceLibvirtPoolCreate dirPool
             (defineAndStart ++ [RPool (Ok 7%N); RPool (Err notFound);
                                 RError None])%list in
  ret o = Ok tt ∧ Id (rd o) = "".
Proof. split; reflexivity. Qed.

End MoreRuns.
